(** * Daily sales and inventory metrics ([agent_tools.py])

    A shallow embedding of the metric functions and of the report composer of
    [agent_tools.py], and the properties of the report specification that
    they satisfy.

    The functions are thin wrappers around pandas calls.  What the embedding
    fixes about pandas is stated where it is introduced:
    - a data frame is a row count together with the columns it carries, so a
      column can be absent and [getitem] then raises [KeyError];
    - the element type of the money columns is a parameter, as the source is
      duck-typed: [float64] (IEEE binary64) is the type that columns of
      numbers have, [fraction] is an exact number type used to say what
      holds without rounding;
    - integer columns are [int64] and wrap around;
    - the order in which pandas adds up floats is a parameter: nothing is
      assumed of [Series.sum()] and of the group sums of floats but that the
      sum of no values is zero;
    - the order in which a Python set enumerates its elements is a parameter
      as well;
    - [groupby] yields its groups in sorted key order. *)

From Stdlib Require Import ZArith String Ascii List Bool Lia SpecFloat QArith Qcanon.
From stdpp Require Import base tactics option list strings sets sorting pretty.

Local Open Scope Z_scope.
Local Open Scope string_scope.

(** ** Exceptions and results *)

(** The exceptions that leave the metric functions.  None is raised by the
    source itself: pandas raises [KeyError] for a column label that the frame
    does not have and [ValueError] for the arg-max of an empty sequence, and
    dividing by zero raises [ZeroDivisionError] for the number types whose
    division does so. *)
Inductive exn : Type :=
| KeyError (label : string)
| ValueError
| ZeroDivisionError.

Inductive result (A : Type) : Type :=
| Ok (a : A)
| Raise (e : exn).
Arguments Ok {A} a.
Arguments Raise {A} e.

#[global] Instance result_ret : MRet result := @Ok.
#[global] Instance result_bind : MBind result := λ A B f m,
  match m with
  | Ok a => f a
  | Raise e => Raise e
  end.
#[global] Instance result_fmap : FMap result := λ A B f m,
  match m with
  | Ok a => Ok (f a)
  | Raise e => Raise e
  end.

(** The error taxonomy of the report specification, read on the exceptions
    of the code: a missing column is its [SchemaError], the arg-max of no
    rows its [EmptyInputError]. *)
Definition SchemaError (e : exn) : Prop :=
  match e with KeyError _ => True | _ => False end.
Definition EmptyInputError (e : exn) : Prop := e = ValueError.

Definition fails_with {A} (P : exn → Prop) (r : result A) : Prop :=
  match r with
  | Raise e => P e
  | Ok _ => False
  end.

(** ** Element types of columns *)

(** What a Series needs from its elements to be summed and ordered. *)
Class Dtype (V : Type) : Type := {
  zero : V;
  add : V → V → V;
  ltb : V → V → bool;
  leb : V → V → bool;
  isna : V → bool
}.

(** What the money columns need besides: Python's [-], [*] and [/], the
    conversion of an [int] operand, and truthiness ([if revenue]). *)
Class Real (F : Type) : Type := {
  real_dtype :: Dtype F;
  sub : F → F → F;
  mul : F → F → F;
  div : F → F → result F;
  of_int : Z → F;
  truthy : F → bool
}.

(** *** [int64] *)

Definition wrap64 (z : Z) : Z := (z + 2 ^ 63) mod 2 ^ 64 - 2 ^ 63.

#[global] Instance int64 : Dtype Z := {|
  zero := 0;
  add a b := wrap64 (a + b);
  ltb := Z.ltb;
  leb := Z.leb;
  isna _ := false
|}.

(** *** [float64] *)

Module Float64.
Definition prec : Z := 53.
Definition emax : Z := 1024.

Definition t : Type := spec_float.

(** The float nearest to an integer. *)
Definition of_Z (z : Z) : t := binary_normalize prec emax z 0 false.
Definition is_nan (x : t) : bool :=
  match x with S754_nan => true | _ => false end.
Definition is_zero (x : t) : bool :=
  match x with S754_zero _ => true | _ => false end.
(** [x == y] of Python. *)
Definition eqb (x y : t) : bool := SFeqb x y.
(** The literal [0.0]. *)
Definition pos_zero : t := S754_zero false.
End Float64.

Definition float64_dtype : Dtype Float64.t := {|
  zero := Float64.pos_zero;
  add := SFadd Float64.prec Float64.emax;
  ltb := SFltb;
  leb := SFleb;
  isna := Float64.is_nan
|}.

(** Dividing a [float64] by zero yields an infinity or NaN, never an
    exception; every float but the two zeros is true. *)
#[global] Instance float64 : Real Float64.t := {|
  real_dtype := float64_dtype;
  sub := SFsub Float64.prec Float64.emax;
  mul := SFmul Float64.prec Float64.emax;
  div x y := Ok (SFdiv Float64.prec Float64.emax x y);
  of_int := Float64.of_Z;
  truthy x := negb (Float64.is_zero x)
|}.

(** *** Exact fractions *)

(** The arithmetic of [fractions.Fraction] values: sums, products and
    differences are exact, and a division by zero raises. *)
Module Fraction.
Definition t : Type := Qc.
Definition ltb (x y : t) : bool :=
  match (x ?= y)%Qc with Lt => true | _ => false end.
Definition leb (x y : t) : bool :=
  match (x ?= y)%Qc with Gt => false | _ => true end.
Definition is_zero (x : t) : bool := Qeq_bool x 0.
Definition of_Z (z : Z) : t := Q2Qc (inject_Z z).
End Fraction.

Definition fraction_dtype : Dtype Fraction.t := {|
  zero := 0%Qc;
  add := Qcplus;
  ltb := Fraction.ltb;
  leb := Fraction.leb;
  isna _ := false
|}.

#[global] Instance fraction : Real Fraction.t := {|
  real_dtype := fraction_dtype;
  sub := Qcminus;
  mul := Qcmult;
  div x y := if Fraction.is_zero y then Raise ZeroDivisionError else Ok (x / y)%Qc;
  of_int := Fraction.of_Z;
  truthy x := negb (Fraction.is_zero x)
|}.

(** ** Series *)

(** Adding up, from left to right, the values that are not missing. *)
Definition fold_sum {V} {D : Dtype V} (s : list V) : V :=
  foldl (λ acc x, if isna x then acc else add acc x) zero s.

(** The two reductions of pandas that the metric functions call:
    [Series.sum()], and the sum that [GroupBy.sum()], also as
    [agg('sum')], forms of the values of one group, which it is given in row
    order.  Both are library code.  For [int64] and for exact numbers every
    order of adding gives the same sum.  For floats the result depends on
    the order of adding and on compensation terms, which differ between the
    routines of numpy and pandas (pairwise, compensated) and are not those
    of a plain loop; so for floats the two reductions are parameters, of
    which one thing is fixed: the sum of no values is [zero]. *)
Class Reduction (V : Type) {D : Dtype V} : Type := {
  sum : list V → V;
  agg_sum : list V → V;
  sum_nil : sum [] = zero
}.

#[global] Instance int64_reduction : Reduction Z := {|
  sum := fold_sum;
  agg_sum := fold_sum;
  sum_nil := eq_refl
|}.

#[global] Instance fraction_reduction : Reduction Fraction.t := {|
  sum := fold_sum;
  agg_sum := fold_sum;
  sum_nil := eq_refl
|}.

(** One choice for floats: both reductions add from left to right.  It is
    used to evaluate the functions on the fixtures below only.  Their
    columns and groups have at most two values, or hold whole numbers so
    small that no addition rounds, and on such values every order of adding,
    compensated or not, gives the same sum.  It is not declared as an
    instance: the properties of the metric functions are stated for every
    reduction. *)
Definition left_to_right : Reduction Float64.t := {|
  sum := fold_sum;
  agg_sum := fold_sum;
  sum_nil := eq_refl
|}.

(** [Series.idxmax()] on a Series given as its (label, value) pairs: the
    label of the first occurrence of the maximum, missing values excluded;
    [ValueError] when there is nothing to take the maximum of. *)
Fixpoint argmax_from {V} {D : Dtype V} (best : string * V) (s : list (string * V))
    : string * V :=
  match s with
  | [] => best
  | x :: s' => if ltb best.2 x.2 then argmax_from x s' else argmax_from best s'
  end.

Definition idxmax {V} {D : Dtype V} (s : list (string * V)) : result string :=
  match filter (λ kv, isna kv.2 = false) s with
  | [] => Raise ValueError
  | x :: s' => Ok (argmax_from x s').1
  end.

(** ** Grouping *)

(** The group keys of [groupby(label)]: the distinct values of the key
    column, sorted ([sort=True] is the default).  Strings compare by code
    point, which on UTF-8 bytes is the byte-wise lexicographic order. *)
Definition group_keys (keys : list string) : list string :=
  merge_sort String.le (remove_dups keys).

(** The values of the rows whose key is [k], in row order. *)
Definition get_group {V} (keys : list string) (vals : list V) (k : string) : list V :=
  (filter (λ kv, kv.1 = k) (zip keys vals)).*2.

(** [df.groupby(label)[column].sum()] *)
Definition groupby_sum {V} {D : Dtype V} {S : Reduction V} (keys : list string)
    (vals : list V) : list (string * V) :=
  (λ k, (k, agg_sum (get_group keys vals k))) <$> group_keys keys.

(** ** Python sets *)

(** A Python set enumerates its elements in an order that the language does
    not specify and that depends on how the set was built.  A set is
    represented by the list of its elements in that order; [set(items)] and
    the difference of two sets are parameters of which the elements are
    known and the order is not.  [list(s)] is then the list itself. *)
Class PySet : Type := {
  set_of : list string → list string;
  set_difference : list string → list string → list string;
  set_of_NoDup (l : list string) : NoDup (set_of l);
  elem_of_set_of (l : list string) (x : string) : x ∈ set_of l ↔ x ∈ l;
  set_difference_NoDup (a b : list string) : NoDup a → NoDup (set_difference a b);
  elem_of_set_difference (a b : list string) (x : string) :
    x ∈ set_difference a b ↔ x ∈ a ∧ x ∉ b
}.

(** ** Data frames *)

Section Frames.
Context {F : Type}.

(** A frame with [len] rows.  Only the seven columns that the metric
    functions ever ask for are represented; each may be absent. *)
Record DataFrame : Type := {
  len : nat;
  Item : option (list string);
  Quantity : option (list Z);
  Cost_per_Unit : option (list F);
  Total_Price : option (list F);
  Profit : option (list F);
  Time : option (list string);
  Stock : option (list Z)
}.

(** [df[label]] *)
Definition getitem {A} (label : string) (column : option (list A)) : result (list A) :=
  match column with
  | Some s => Ok s
  | None => Raise (KeyError label)
  end.

(** The rows of the two input tables. *)
Record SalesRecord : Type := {
  item : string;
  quantity : Z;
  unit_cost : F;
  total_price : F;
  profit : F;
  time : string
}.

Record InventoryRecord : Type := {
  inv_item : string;
  stock : Z
}.

Definition sales_table (rows : list SalesRecord) : DataFrame := {|
  len := length rows;
  Item := Some (item <$> rows);
  Quantity := Some (quantity <$> rows);
  Cost_per_Unit := Some (unit_cost <$> rows);
  Total_Price := Some (total_price <$> rows);
  Profit := Some (profit <$> rows);
  Time := Some (time <$> rows);
  Stock := None
|}.

Definition inventory_table (rows : list InventoryRecord) : DataFrame := {|
  len := length rows;
  Item := Some (inv_item <$> rows);
  Quantity := None;
  Cost_per_Unit := None;
  Total_Price := None;
  Profit := None;
  Time := None;
  Stock := Some (stock <$> rows)
|}.

(** [pd.DataFrame()]: no rows and no columns. *)
Definition no_columns : DataFrame := {|
  len := 0;
  Item := None;
  Quantity := None;
  Cost_per_Unit := None;
  Total_Price := None;
  Profit := None;
  Time := None;
  Stock := None
|}.
End Frames.
Arguments DataFrame F : clear implicits.
Arguments SalesRecord F : clear implicits.

(** ** Metric functions *)

Section Metrics.
Context {F : Type} {R : Real F} {S : Reduction F} {P : PySet}.

Definition total_revenue (df : DataFrame F) : result F :=
  s ← getitem "Total Price" (Total_Price df);
  mret (sum s).

Definition total_cost (df : DataFrame F) : result F :=
  c ← getitem "Cost per Unit" (Cost_per_Unit df);
  q ← getitem "Quantity" (Quantity df);
  mret (sum (zip_with (λ c q, mul c (of_int q)) c q)).

Definition total_profit (df : DataFrame F) : result F :=
  s ← getitem "Profit" (Profit df);
  mret (sum s).

Definition gross_margin (df : DataFrame F) : result F :=
  revenue ← sum <$> getitem "Total Price" (Total_Price df);
  profit ← sum <$> getitem "Profit" (Profit df);
  if truthy revenue
  then r ← div profit revenue; mret (mul r (of_int 100))
  else mret zero.

Definition total_units_sold (df : DataFrame F) : result Z :=
  s ← getitem "Quantity" (Quantity df);
  mret (sum s).

Definition number_of_transactions (df : DataFrame F) : result Z :=
  mret (Z.of_nat (len df)).

(** [sum / len] divides a numpy integer by an [int]: the quotient is a
    [float64] whatever the money columns hold, as is the literal [0.0].  The
    condition [len(df)] is evaluated first. *)
Definition average_basket_size (df : DataFrame F) : result Float64.t :=
  if bool_decide (len df ≠ 0%nat)
  then s ← getitem "Quantity" (Quantity df);
       div (Float64.of_Z (sum s)) (Float64.of_Z (Z.of_nat (len df)))
  else mret Float64.pos_zero.

(** [str(peak)]: the time labels are strings already. *)
Definition str (s : string) : string := s.

Definition peak_sales_hour (df : DataFrame F) : result string :=
  t ← getitem "Time" (Time df);
  p ← getitem "Total Price" (Total_Price df);
  peak ← idxmax (groupby_sum t p);
  mret (str peak).

Definition top_selling_item (df : DataFrame F) : result string :=
  i ← getitem "Item" (Item df);
  q ← getitem "Quantity" (Quantity df);
  idxmax (groupby_sum i q).

Definition most_profitable_item (df : DataFrame F) : result string :=
  i ← getitem "Item" (Item df);
  p ← getitem "Profit" (Profit df);
  idxmax (groupby_sum i p).

(** [inventory_df[mask]['Item'].tolist()]: the mask is computed from
    [Stock] first, the filtered frame is then asked for [Item]. *)
Definition low_stock_items (inventory_df : DataFrame F) (threshold : Z)
    : result (list string) :=
  s ← getitem "Stock" (Stock inventory_df);
  i ← getitem "Item" (Item inventory_df);
  mret (filter (λ row : string * Z, (row.2 < threshold)%Z) (zip i s)).*1.

Definition unsold_items (inventory_df sales_df : DataFrame F) : result (list string) :=
  sold_items ← set_of <$> getitem "Item" (Item sales_df);
  all_items ← set_of <$> getitem "Item" (Item inventory_df);
  mret (set_difference all_items sold_items).

Definition fast_movers (inventory_df : DataFrame F) : result (list string) :=
  s ← getitem "Stock" (Stock inventory_df);
  i ← getitem "Item" (Item inventory_df);
  mret (filter (λ row : string * Z, (row.2 ≤ 1)%Z) (zip i s)).*1.

(** One row of [grouped]: the index label and the columns [Quantity],
    [Total Price] and [Profit]. *)
Record GroupedRow : Type := {
  g_item : string;
  g_quantity : Z;
  g_total_price : F;
  g_profit : F
}.

(** [df.groupby('Item').agg({...: 'sum'})] *)
Definition agg_sums (i : list string) (q : list Z) (r p : list F) : list GroupedRow :=
  (λ k, {| g_item := k;
           g_quantity := agg_sum (get_group i q k);
           g_total_price := agg_sum (get_group i r k);
           g_profit := agg_sum (get_group i p k) |}) <$> group_keys i.

(** [(grouped['Profit'] / grouped['Total Price']) * 100], row by row. *)
Definition margin (g : GroupedRow) : result F :=
  m ← div (g_profit g) (g_total_price g);
  mret (mul m (of_int 100)).

Definition low_margin_high_sellers (df : DataFrame F)
    (margin_threshold : F) (qty_threshold : Z) : result (list string) :=
  i ← getitem "Item" (Item df);
  q ← getitem "Quantity" (Quantity df);
  r ← getitem "Total Price" (Total_Price df);
  p ← getitem "Profit" (Profit df);
  let grouped := agg_sums i q r p in
  with_margin ← mapM (λ g, m ← margin g; mret (g, m)) grouped;
  let flagged :=
    filter (λ gm, leb qty_threshold (g_quantity gm.1) && ltb gm.2 margin_threshold)
           with_margin in
  mret (g_item <$> flagged.*1).

(** The default arguments [threshold=10], [margin_threshold=10.0] and
    [qty_threshold=5]. *)
Definition default_threshold : Z := 10.
Definition default_margin_threshold : F := of_int 10.
Definition default_qty_threshold : Z := 5.
End Metrics.
Arguments GroupedRow F : clear implicits.

(** ** The report composer *)

Section Composer.
(** Python's [format(value, spec)] for floats is not part of the source; it
    is a parameter of the composer. *)
Variable format : string → Float64.t → string.

Definition newline : string := String "010" EmptyString.

(** [sep.join(items)] *)
Definition join (sep : string) (items : list string) : string := String.concat sep items.

(** Truth value of an optional list argument: [None] and the empty list are
    false. *)
Definition list_truthy (l : option (list string)) : bool :=
  match l with
  | Some (_ :: _) => true
  | _ => false
  end.

Definition items_of (l : option (list string)) : list string := default [] l.

(** The sentences that every report starts with: the first value of
    [summary]. *)
Definition headline
    (total_revenue total_profit gross_margin : Float64.t)
    (total_units_sold number_of_transactions : Z)
    (average_basket_size : Float64.t)
    (peak_sales_hour top_selling_item most_profitable_item : string) : string :=
  "Your store earned $" +:+ format ",.2f" total_revenue +:+
  " in revenue and made $" +:+ format ",.2f" total_profit +:+ " in profit today, " +:+
  "with a gross margin of " +:+ format ".1f" gross_margin +:+ "%. " +:+
  "A total of " +:+ pretty total_units_sold +:+ " items were sold in " +:+
  pretty number_of_transactions +:+ " transactions. " +:+
  "Average basket size was " +:+ format ".2f" average_basket_size +:+
  " units per transaction. " +:+
  "Peak sales occurred at " +:+ peak_sales_hour +:+ ". " +:+
  top_selling_item +:+ " led sales, while " +:+ most_profitable_item +:+
  " was the most profitable item. ".

Definition natural_language_summary
    (total_revenue total_cost total_profit gross_margin : Float64.t)
    (total_units_sold number_of_transactions : Z)
    (average_basket_size : Float64.t)
    (peak_sales_hour top_selling_item most_profitable_item : string)
    (low_stock_items unsold_items fast_movers low_margin_high_sellers : option (list string))
    : string :=
  let summary :=
    headline total_revenue total_profit gross_margin total_units_sold
      number_of_transactions average_basket_size peak_sales_hour top_selling_item
      most_profitable_item in
  let summary :=
    if list_truthy low_stock_items
    then summary +:+ newline +:+ "Low stock items: " +:+
         join ", " (items_of low_stock_items) +:+ "."
    else summary in
  let summary :=
    if list_truthy unsold_items
    then summary +:+ newline +:+ "Unsold items: " +:+
         join ", " (items_of unsold_items) +:+ "."
    else summary in
  let summary :=
    if list_truthy fast_movers
    then summary +:+ newline +:+ "Fast movers (sold out/nearly sold out): " +:+
         join ", " (items_of fast_movers) +:+ "."
    else summary in
  let summary :=
    if list_truthy low_margin_high_sellers
    then summary +:+ newline +:+ "High-selling, low-margin items: " +:+
         join ", " (items_of low_margin_high_sellers) +:+ "."
    else summary in
  summary.
End Composer.

(** ** Notions of the specification *)

(** *** Laws of the element types *)

(** The comparisons of an element type form a total preorder away from the
    missing values, which compare false with everything. *)
Class DtypeOrder (V : Type) {D : Dtype V} : Prop := {
  leb_trans (a b c : V) : leb a b = true → leb b c = true → leb a c = true;
  ltb_leb (a b : V) : ltb a b = leb a b && negb (leb b a);
  leb_notna (a b : V) : leb a b = true → isna a = false
}.

(** Column arithmetic without rounding: addition is associative and
    commutative with [zero] as identity, subtraction undoes it, no value
    is missing, and [Series.sum()] adds the values up.  Fractions satisfy
    these laws; [float64] does not. *)
Class ExactReal (F : Type) {R : Real F} {S : Reduction F} : Prop := {
  sum_adds (s : list F) : sum s = fold_sum s;
  add_comm (a b : F) : add a b = add b a;
  add_assoc (a b c : F) : add a (add b c) = add (add a b) c;
  add_zero_l (a : F) : add zero a = a;
  sub_add (a b : F) : add (sub a b) b = a;
  add_sub (a b : F) : sub (add a b) b = a;
  never_na (a : F) : isna a = false
}.

(** *** Maxima *)

(** The label [k] carries a value that no value of the Series exceeds. *)
Definition attains_max {V} {D : Dtype V} (s : list (string * V)) (k : string) : Prop :=
  ∃ v, (k, v) ∈ s ∧ ∀ kv, kv ∈ s → leb kv.2 v = true.

(** *** Groups of a sales table *)

(** The rows of the group [k], and the sum of one of their columns. *)
Definition group_rows {F} (key : SalesRecord F → string) (rows : list (SalesRecord F))
    (k : string) : list (SalesRecord F) :=
  filter (λ r, key r = k) rows.

Definition group_sum {F V} {D : Dtype V} {S : Reduction V}
    (key : SalesRecord F → string)
    (col : SalesRecord F → V) (rows : list (SalesRecord F)) (k : string) : V :=
  agg_sum (col <$> group_rows key rows k).

(** [k] is a group key whose sum no group's sum exceeds. *)
Definition is_max_key {F V} {D : Dtype V} {S : Reduction V}
    (key : SalesRecord F → string)
    (col : SalesRecord F → V) (rows : list (SalesRecord F)) (k : string) : Prop :=
  k ∈ key <$> rows ∧
  ∀ k', k' ∈ key <$> rows → leb (group_sum key col rows k') (group_sum key col rows k) = true.

(** [k] alone attains the maximal group sum. *)
Definition only_max_key {F V} {D : Dtype V} {S : Reduction V}
    (key : SalesRecord F → string)
    (col : SalesRecord F → V) (rows : list (SalesRecord F)) (k : string) : Prop :=
  is_max_key key col rows k ∧ ∀ k', is_max_key key col rows k' → k' = k.

(** [k] is the first, in key order, of the keys that attain it. *)
Definition least_max_key {F V} {D : Dtype V} {S : Reduction V}
    (key : SalesRecord F → string)
    (col : SalesRecord F → V) (rows : list (SalesRecord F)) (k : string) : Prop :=
  is_max_key key col rows k ∧ ∀ k', is_max_key key col rows k' → String.le k k'.

(** The margin of the item group [k] as the specification words it:
    (summed profit / summed revenue) * 100, in [float64] arithmetic. *)
Definition group_margin {S : Reduction Float64.t} (rows : list (SalesRecord Float64.t))
    (k : string) : Float64.t :=
  SFmul Float64.prec Float64.emax
    (SFdiv Float64.prec Float64.emax
       (group_sum item profit rows k) (group_sum item total_price rows k))
    (Float64.of_Z 100).

(** The group [k] passes both tests of [low_margin_high_sellers]. *)
Definition flags {S : Reduction Float64.t} (rows : list (SalesRecord Float64.t))
    (margin_threshold : Float64.t) (qty_threshold : Z) (k : string) : bool :=
  Z.leb qty_threshold (group_sum item quantity rows k) &&
  SFltb (group_margin rows k) margin_threshold.

(** *** Columns *)

Inductive column : Type :=
| CItem | CQuantity | CCost_per_Unit | CTotal_Price | CProfit | CTime | CStock.

Definition missing {F} (df : DataFrame F) (c : column) : Prop :=
  match c with
  | CItem => Item df = None
  | CQuantity => Quantity df = None
  | CCost_per_Unit => Cost_per_Unit df = None
  | CTotal_Price => Total_Price df = None
  | CProfit => Profit df = None
  | CTime => Time df = None
  | CStock => Stock df = None
  end.

(** The frame lacks one of the columns [cs]. *)
Definition lacks {F} (df : DataFrame F) (cs : list column) : Prop :=
  ∃ c, c ∈ cs ∧ missing df c.

(** *** Consistent fixtures *)

Definition row_cost {F} {R : Real F} (r : SalesRecord F) : F :=
  mul (unit_cost r) (of_int (quantity r)).

(** Every row's profit is its revenue minus its unit cost times its
    quantity. *)
Definition consistent {F} {R : Real F} (rows : list (SalesRecord F)) : Prop :=
  ∀ r, r ∈ rows → profit r = sub (total_price r) (row_cost r).

(** *** The diagnostic lines of a report *)

(** One line, its fixed label followed by the comma-joined list and a full
    stop, for each of the four lists that is not empty, in this order. *)
Definition diagnostic_lines
    (low_stock_items unsold_items fast_movers low_margin_high_sellers : option (list string))
    : list string :=
  (λ d : string * list string, d.1 +:+ join ", " d.2 +:+ ".") <$>
  filter (λ d : string * list string, d.2 ≠ [])
    [ ("Low stock items: ", items_of low_stock_items);
      ("Unsold items: ", items_of unsold_items);
      ("Fast movers (sold out/nearly sold out): ", items_of fast_movers);
      ("High-selling, low-margin items: ", items_of low_margin_high_sellers) ].

(** *** Integer sums and comparable values *)

(** The sum of a list of integers, without wrap-around. *)
Definition exact_sum (l : list Z) : Z := foldr Z.add 0 l.

(** Values that are not missing are comparable. *)
Class DtypeTotal (V : Type) {D : Dtype V} : Prop := {
  leb_total (a b : V) : isna a = false → isna b = false → leb a b = true ∨ leb b a = true
}.

(** ** Fixtures *)

(** A sale with whole-number prices. *)
Definition sale (i : string) (q : Z) (c r p : Z) (t : string) : SalesRecord Float64.t :=
  {| item := i; quantity := q; unit_cost := Float64.of_Z c;
     total_price := Float64.of_Z r; profit := Float64.of_Z p; time := t |}.

(** A day on which every item sells at a loss. *)
Definition loss_day : list (SalesRecord Float64.t) :=
  [ sale "Coffee" 3 4 9 (-3) "09:00"; sale "Tea" 1 4 2 (-2) "10:00";
    sale "Coffee" 1 4 3 (-1) "10:00"; sale "Tea" 2 4 4 (-4) "09:00" ].

(** A day on which the two items and the two hours tie on every sum; the
    rows are not in key order. *)
Definition tied_day : list (SalesRecord Float64.t) :=
  [ sale "Tea" 2 1 5 1 "10:00"; sale "Coffee" 1 1 3 2 "09:00";
    sale "Coffee" 1 1 2 (-1) "09:00" ].

(** A day on which bread sells well at a thin margin, tea has a thin margin
    but sells little, and coffee sells well at a good margin. *)
Definition bakery_day : list (SalesRecord Float64.t) :=
  [ sale "Coffee" 4 1 60 40 "09:00"; sale "Bread" 6 15 100 5 "09:00";
    sale "Tea" 2 49 100 1 "10:00"; sale "Coffee" 3 1 40 20 "11:00" ].

(** A day with a give-away: the pins bring no revenue and no profit. *)
Definition giveaway_day : list (SalesRecord Float64.t) :=
  [ sale "Pin" 9 0 0 0 "09:00"; sale "Bread" 6 15 100 5 "09:00" ].

(** The float nearest to the decimal fraction [n / d]. *)
Definition decimal (n d : Z) : Float64.t :=
  SFdiv Float64.prec Float64.emax (Float64.of_Z n) (Float64.of_Z d).

(** A sale whose profit is computed from its other fields. *)
Definition priced (i : string) (q : Z) (c r : Float64.t) (t : string)
    : SalesRecord Float64.t :=
  {| item := i; quantity := q; unit_cost := c; total_price := r;
     profit := sub r (mul c (of_int q)); time := t |}.

(** Prices in tenths: [0.3 - 0.1 * 1] is [0.19999999999999998] and
    [0.5 - 0.1 * 1] is [0.4]. *)
Definition tenths_day : list (SalesRecord Float64.t) :=
  [ priced "Gum" 1 (decimal 1 10) (decimal 3 10) "09:00";
    priced "Mint" 1 (decimal 1 10) (decimal 5 10) "10:00" ].

(** The end-to-end scenario of the specification, in floats and in
    fractions. *)
Definition scenario_sales : list (SalesRecord Float64.t) :=
  [ {| item := "Coffee"; quantity := 3; unit_cost := Float64.of_Z 1;
       total_price := Float64.of_Z 9; profit := Float64.of_Z 6; time := "09:00" |};
    {| item := "Tea"; quantity := 1; unit_cost := decimal 1 2;
       total_price := Float64.of_Z 2; profit := decimal 3 2; time := "10:00" |} ].

Definition scenario_inventory : list InventoryRecord :=
  [ {| inv_item := "Coffee"; stock := 2 |}; {| inv_item := "Tea"; stock := 50 |};
    {| inv_item := "Milk"; stock := 0 |} ].

Definition coffee_and_tea : list (SalesRecord Fraction.t) :=
  [ {| item := "Coffee"; quantity := 3; unit_cost := Fraction.of_Z 1;
       total_price := Fraction.of_Z 9; profit := Fraction.of_Z 6; time := "09:00" |};
    {| item := "Tea"; quantity := 1; unit_cost := Q2Qc (1 # 2);
       total_price := Fraction.of_Z 2; profit := Q2Qc (3 # 2); time := "10:00" |} ].

(** A day in exact fractions on which the samples are free: they bring no
    revenue. *)
Definition free_samples : list (SalesRecord Fraction.t) :=
  [ {| item := "Sample"; quantity := 9; unit_cost := Fraction.of_Z 0;
       total_price := Fraction.of_Z 0; profit := Fraction.of_Z 0; time := "09:00" |};
    {| item := "Bread"; quantity := 6; unit_cost := Fraction.of_Z 15;
       total_price := Fraction.of_Z 100; profit := Fraction.of_Z 10; time := "09:00" |} ].

(** A promotion day: the pins are given away at a loss. *)
Definition promo_day : list (SalesRecord Float64.t) :=
  [ sale "Pin" 9 1 0 (-9) "09:00"; sale "Bread" 6 15 100 5 "10:00" ].

(** One admissible choice for the sets: they enumerate their elements in
    the order of first insertion.  It is used to evaluate [unsold_items] on
    the fixtures. *)
Definition insertion_order : PySet.
Proof.
  refine {| set_of l := remove_dups l;
            set_difference a b := filter (λ x, x ∉ b) a |}.
  - intros l. apply NoDup_remove_dups.
  - intros l x. apply elem_of_remove_dups.
  - intros a b Ha. by apply NoDup_filter.
  - intros a b x. rewrite list_elem_of_filter. tauto.
Defined.

(** A stand-in for Python's [format]: it prints the format specification
    in place of the number. *)
Definition spec_format (spec : string) (x : Float64.t) : string := spec.

(** ** Proof automation *)

(** Comparisons of integers and positives, by cases. *)
Ltac cmp_cases :=
  repeat match goal with
  | H : context [Z.compare ?a ?b] |- _ => destruct (Z.compare_spec a b); simpl in H
  | |- context [Z.compare ?a ?b] => destruct (Z.compare_spec a b); simpl
  | H : context [Pos.compare_cont Eq ?a ?b] |- _ =>
      change (Pos.compare_cont Eq a b) with (Pos.compare a b) in H;
      destruct (Pos.compare_spec a b); simpl in H
  | |- context [Pos.compare_cont Eq ?a ?b] =>
      change (Pos.compare_cont Eq a b) with (Pos.compare a b);
      destruct (Pos.compare_spec a b); simpl
  end.

(** Membership in a literal list, by cases. *)
Ltac key_cases H :=
  apply list_elem_of_In in H; simpl in H;
  repeat (destruct H as [<-|H]; [|]); [..|destruct H].

Ltac in_keys := apply list_elem_of_In; simpl; tauto.

(** The three notions of a maximal key, on a fixture. *)
Ltac max_key :=
  split; [in_keys|];
  let k' := fresh "k" in let Hk' := fresh "Hk" in
  intros k' Hk'; key_cases Hk'; vm_compute; reflexivity.

Ltac only_max k :=
  split; [max_key|];
  let k' := fresh "k" in let Hk' := fresh "Hk" in let Hmax := fresh "Hmax" in
  intros k' [Hk' Hmax]; key_cases Hk'; first
    [ reflexivity
    | exfalso; specialize (Hmax k ltac:(in_keys)); vm_compute in Hmax; discriminate ].

Ltac least_max k :=
  split; [max_key|];
  let k' := fresh "k" in let Hk' := fresh "Hk" in let Hmax := fresh "Hmax" in
  intros k' [Hk' Hmax]; key_cases Hk'; first
    [ vm_compute; exact I
    | exfalso; specialize (Hmax k ltac:(in_keys)); vm_compute in Hmax; discriminate ].

(** A frame that lacks one of several columns, by cases. *)
Ltac lacking H :=
  let c := fresh "c" in let Hc := fresh "Hc" in
  destruct H as (c & Hc & H);
  apply list_elem_of_In in Hc; simpl in Hc;
  repeat (destruct Hc as [<-|Hc]; [|]); [..|destruct Hc]; simpl in H.

Ltac schema_error df H :=
  lacking H; destruct df as [n i q c r p t s]; simpl in H; subst;
  repeat match goal with x : option _ |- _ => destruct x end; exact I.

(** * Properties *)

(** ** The embedding on the end-to-end scenario of the specification *)

Section Scenario.
#[local] Existing Instance left_to_right.
#[local] Existing Instance insertion_order.

Example scenario_totals :
  total_revenue (sales_table scenario_sales) = Ok (Float64.of_Z 11) ∧
  total_cost (sales_table scenario_sales) = Ok (decimal 7 2) ∧
  total_profit (sales_table scenario_sales) = Ok (decimal 15 2) ∧
  total_units_sold (sales_table scenario_sales) = Ok 4 ∧
  number_of_transactions (sales_table scenario_sales) = Ok 2 ∧
  average_basket_size (sales_table scenario_sales) = Ok (Float64.of_Z 2).
Proof. repeat split; vm_compute; reflexivity. Qed.

Example scenario_leaders :
  peak_sales_hour (sales_table scenario_sales) = Ok "09:00" ∧
  top_selling_item (sales_table scenario_sales) = Ok "Coffee" ∧
  most_profitable_item (sales_table scenario_sales) = Ok "Coffee" ∧
  unsold_items (inventory_table scenario_inventory) (sales_table scenario_sales) =
    Ok ["Milk"].
Proof. repeat split; vm_compute; reflexivity. Qed.

(** The scenario is a consistent fixture, and its totals are related as the
    sanity invariant says: [7.5 = 11.0 - 3.5]. *)
Example scenario_profit :
  consistent scenario_sales ∧
  total_profit (sales_table scenario_sales) =
  (r ← total_revenue (sales_table scenario_sales);
   c ← total_cost (sales_table scenario_sales);
   mret (sub r c)).
Proof.
  split.
  - intros r Hr. key_cases Hr; vm_compute; reflexivity.
  - vm_compute. reflexivity.
Qed.

End Scenario.

(** ** The arg-max *)

Section Maximum.
Context {V : Type} {D : Dtype V} {O : DtypeOrder V}.

Lemma ltb_asym (a b : V) : ltb a b = true → ltb b a = false.
Proof.
  rewrite !ltb_leb. intros [Hab Hba]%andb_true_iff.
  apply negb_true_iff in Hba. by rewrite Hba.
Qed.

Lemma leb_not_ltb (a b : V) : leb a b = true → ltb b a = false.
Proof. intros Hab. rewrite ltb_leb, Hab. apply andb_false_r. Qed.

Lemma argmax_from_keeps (best : string * V) (s : list (string * V)) :
  (∀ x, x ∈ s → ltb best.2 x.2 = false) → argmax_from best s = best.
Proof.
  induction s as [|x s IH]; intros Hs; simpl; [done|].
  rewrite (Hs x) by left. apply IH. intros y Hy. apply Hs. by right.
Qed.

Lemma argmax_from_reaches (kv best : string * V) (pre post : list (string * V)) :
  ltb best.2 kv.2 = true →
  (∀ x, x ∈ pre → ltb x.2 kv.2 = true) →
  (∀ x, x ∈ post → ltb kv.2 x.2 = false) →
  argmax_from best (pre ++ kv :: post) = kv.
Proof.
  intros Hbest Hpre Hpost. revert best Hbest.
  induction pre as [|x pre IH]; intros best Hbest; simpl.
  - rewrite Hbest. by apply argmax_from_keeps.
  - assert (Hx : ltb x.2 kv.2 = true) by (apply Hpre; left).
    assert (Hpre' : ∀ y, y ∈ pre → ltb y.2 kv.2 = true)
      by (intros y Hy; apply Hpre; by right).
    destruct (ltb best.2 x.2); by apply IH.
Qed.

Lemma filter_notna_id (s : list (string * V)) :
  (∀ kv, kv ∈ s → isna kv.2 = false) →
  filter (λ kv : string * V, isna kv.2 = false) s = s.
Proof.
  induction s as [|x s IH]; intros Hs; [done|].
  rewrite filter_cons_True by (apply Hs; left).
  f_equal. apply IH. intros y Hy. apply Hs. by right.
Qed.

(** First occurrence of the maximum: everything before the returned label
    is strictly smaller, nothing after it is greater. *)
Lemma idxmax_first (kv : string * V) (pre post : list (string * V)) :
  isna kv.2 = false →
  (∀ x, x ∈ pre → ltb x.2 kv.2 = true) →
  (∀ x, x ∈ post → leb x.2 kv.2 = true) →
  idxmax (pre ++ kv :: post) = Ok kv.1.
Proof.
  intros Hkv Hpre Hpost. unfold idxmax.
  rewrite filter_notna_id.
  - assert (Hpost' : ∀ x, x ∈ post → ltb kv.2 x.2 = false)
      by (intros x Hx; by apply leb_not_ltb, Hpost).
    destruct pre as [|b pre]; simpl.
    + by rewrite argmax_from_keeps.
    + rewrite argmax_from_reaches; [done| |by intros x Hx; apply Hpre; right|done].
      apply Hpre. by left.
  - intros x [Hx|[->|Hx]%elem_of_cons]%elem_of_app; [|done|].
    + apply Hpre in Hx. rewrite ltb_leb in Hx.
      apply andb_true_iff in Hx as [Hx _]. by eapply leb_notna.
    + eapply leb_notna. by apply Hpost.
Qed.

(** Among the labels that attain the maximum of a Series laid out in
    sorted label order, [idxmax] returns the least. *)
Lemma idxmax_least_max (g : string → V) (ks : list string) (k : string) :
  StronglySorted String.le ks → NoDup ks →
  attains_max ((λ k, (k, g k)) <$> ks) k →
  (∀ k', attains_max ((λ k, (k, g k)) <$> ks) k' → String.le k k') →
  idxmax ((λ k, (k, g k)) <$> ks) = Ok k.
Proof.
  intros Hsorted Hnodup (v & Hin & Hmax) Hleast.
  apply list_elem_of_fmap in Hin as (k0 & [= <- ->] & Hk).
  assert (Hall : ∀ k', k' ∈ ks → leb (g k') (g k) = true).
  { intros k' Hk'. apply (Hmax (k', g k')), list_elem_of_fmap. eauto. }
  apply list_elem_of_split in Hk as (pre & post & ->).
  rewrite fmap_app, fmap_cons.
  apply (idxmax_first (k, g k)); simpl.
  - eapply leb_notna, Hall. set_solver.
  - intros x (k' & -> & Hk')%list_elem_of_fmap. simpl.
    rewrite ltb_leb, Hall by set_solver. simpl. apply negb_true_iff.
    destruct (leb (g k) (g k')) eqn:Hle; [|done]. exfalso.
    assert (Hk'k : String.le k k').
    { apply Hleast. exists (g k'). split.
      - apply list_elem_of_fmap. exists k'. split; [done|set_solver].
      - intros kv (k'' & -> & Hk'')%list_elem_of_fmap. simpl.
        eapply leb_trans; [by apply Hall|done]. }
    apply StronglySorted_app in Hsorted as (Hlt & _ & _).
    assert (k' = k) as -> by (apply (anti_symm String.le); [apply Hlt; set_solver|done]).
    apply NoDup_app in Hnodup as (_ & Hne & _). apply (Hne k); set_solver.
  - intros x (k' & -> & Hk')%list_elem_of_fmap. simpl. apply Hall. set_solver.
Qed.
End Maximum.

(** *** The ordering laws hold for [int64] and [float64] *)

#[global] Instance int64_order : DtypeOrder Z.
Proof.
  split; simpl.
  - intros a b c ?%Z.leb_le ?%Z.leb_le. apply Z.leb_le. lia.
  - intros a b. destruct (Z.ltb_spec a b), (Z.leb_spec a b), (Z.leb_spec b a); simpl; lia.
  - done.
Qed.

Lemma SFleb_trans (a b c : spec_float) :
  SFleb a b = true → SFleb b c = true → SFleb a c = true.
Proof.
  unfold SFleb, SFcompare.
  destruct a as [[]|[]| |[] ma ea], b as [[]|[]| |[] mb eb], c as [[]|[]| |[] mc ec];
    simpl; try done; intros Hab Hbc; cmp_cases; subst; try done; lia.
Qed.

Lemma SFltb_SFleb (a b : spec_float) :
  SFltb a b = SFleb a b && negb (SFleb b a).
Proof.
  unfold SFltb, SFleb, SFcompare.
  destruct a as [[]|[]| |[] ma ea], b as [[]|[]| |[] mb eb];
    simpl; try done; cmp_cases; subst; try done; lia.
Qed.

#[global] Instance float64_order : DtypeOrder Float64.t.
Proof.
  split; simpl.
  - apply SFleb_trans.
  - apply SFltb_SFleb.
  - by intros [] [].
Qed.

(** ** Groups *)

Lemma group_keys_sorted (keys : list string) : StronglySorted String.le (group_keys keys).
Proof. apply StronglySorted_merge_sort; apply _. Qed.

Lemma group_keys_perm (keys : list string) : group_keys keys ≡ₚ remove_dups keys.
Proof. apply merge_sort_Permutation. Qed.

Lemma group_keys_NoDup (keys : list string) : NoDup (group_keys keys).
Proof. rewrite group_keys_perm. apply NoDup_remove_dups. Qed.

Lemma elem_of_group_keys (keys : list string) (k : string) :
  k ∈ group_keys keys ↔ k ∈ keys.
Proof. rewrite group_keys_perm. apply elem_of_remove_dups. Qed.

Section Groups.
Context {F : Type}.

Lemma get_group_fmap {V} (key : SalesRecord F → string) (col : SalesRecord F → V)
    (rows : list (SalesRecord F)) (k : string) :
  get_group (key <$> rows) (col <$> rows) k = col <$> group_rows key rows k.
Proof.
  unfold get_group, group_rows.
  induction rows as [|r rows IH]; [done|]. simpl.
  destruct (decide (key r = k)) as [Hk|Hk].
  - rewrite !filter_cons_True by done. simpl. by f_equal.
  - rewrite !filter_cons_False by done. done.
Qed.

Lemma groupby_sum_rows {V} {D : Dtype V} {S : Reduction V}
    (key : SalesRecord F → string)
    (col : SalesRecord F → V) (rows : list (SalesRecord F)) :
  groupby_sum (key <$> rows) (col <$> rows) =
  (λ k, (k, group_sum key col rows k)) <$> group_keys (key <$> rows).
Proof.
  unfold groupby_sum, group_sum. apply list_fmap_ext. intros _ k _.
  by rewrite get_group_fmap.
Qed.

Lemma is_max_key_attains {V} {D : Dtype V} {S : Reduction V}
    (key : SalesRecord F → string)
    (col : SalesRecord F → V) (rows : list (SalesRecord F)) (k : string) :
  is_max_key key col rows k ↔
  attains_max (groupby_sum (key <$> rows) (col <$> rows)) k.
Proof.
  rewrite groupby_sum_rows. unfold is_max_key, attains_max. split.
  - intros [Hk Hmax]. exists (group_sum key col rows k). split.
    + apply list_elem_of_fmap. exists k. by rewrite elem_of_group_keys.
    + intros kv (k' & -> & Hk')%list_elem_of_fmap. simpl.
      apply Hmax. by apply elem_of_group_keys.
  - intros (v & (k0 & [= <- ->] & Hk)%list_elem_of_fmap & Hmax). split.
    + by apply elem_of_group_keys.
    + intros k' Hk'. apply (Hmax (k', group_sum key col rows k')).
      apply list_elem_of_fmap. exists k'. by rewrite elem_of_group_keys.
Qed.

(** [groupby(key)[col].sum().idxmax()] returns the least of the keys whose
    group sum is maximal. *)
Lemma idxmax_groupby_sum {V} {D : Dtype V} {S : Reduction V} {O : DtypeOrder V}
    (key : SalesRecord F → string) (col : SalesRecord F → V)
    (rows : list (SalesRecord F)) (k : string) :
  least_max_key key col rows k →
  idxmax (groupby_sum (key <$> rows) (col <$> rows)) = Ok k.
Proof.
  intros [Hmax Hleast].
  pose proof (proj1 (is_max_key_attains key col rows k) Hmax) as Hatt.
  rewrite groupby_sum_rows in Hatt |- *.
  apply idxmax_least_max; [apply group_keys_sorted|apply group_keys_NoDup|done|].
  intros k' Hk'. apply Hleast, is_max_key_attains. by rewrite groupby_sum_rows.
Qed.

Lemma only_max_key_least {V} {D : Dtype V} {S : Reduction V}
    (key : SalesRecord F → string)
    (col : SalesRecord F → V) (rows : list (SalesRecord F)) (k : string) :
  only_max_key key col rows k → least_max_key key col rows k.
Proof. intros [Hmax Honly]. split; [done|]. by intros k' ->%Honly. Qed.
End Groups.

(** ** Empty input *)

(** C1.  On a sales table with zero rows, [peak_sales_hour],
    [top_selling_item] and [most_profitable_item] each raise the exception
    that the error taxonomy calls [EmptyInputError] (the [ValueError] of an
    arg-max over no groups); none returns a value. *)
Theorem C1_empty_table_raises {S : Reduction Float64.t} :
  fails_with EmptyInputError (peak_sales_hour (sales_table (F := Float64.t) [])) ∧
  fails_with EmptyInputError (top_selling_item (sales_table (F := Float64.t) [])) ∧
  fails_with EmptyInputError (most_profitable_item (sales_table (F := Float64.t) [])).
Proof. by repeat split. Qed.

(** ** Missing columns *)

(** C2, as the code has it.  A metric function raises the [KeyError] that
    the taxonomy calls [SchemaError] when the frame lacks a column that the
    call reads.  [number_of_transactions] reads none, and
    [average_basket_size] reads [Quantity] only when the frame has rows: on
    a frame without rows it returns [0.0]. *)
Theorem C2_missing_column {F} {R : Real F} {S : Reduction F} {P : PySet}
    (df inventory_df sales_df : DataFrame F)
    (threshold qty_threshold : Z) (margin_threshold : F) :
  (lacks df [CTotal_Price] → fails_with SchemaError (total_revenue df)) ∧
  (lacks df [CCost_per_Unit; CQuantity] → fails_with SchemaError (total_cost df)) ∧
  (lacks df [CProfit] → fails_with SchemaError (total_profit df)) ∧
  (lacks df [CTotal_Price; CProfit] → fails_with SchemaError (gross_margin df)) ∧
  (lacks df [CQuantity] → fails_with SchemaError (total_units_sold df)) ∧
  number_of_transactions df = Ok (Z.of_nat (len df)) ∧
  (lacks df [CQuantity] → len df ≠ 0%nat →
   fails_with SchemaError (average_basket_size df)) ∧
  (len df = 0%nat → average_basket_size df = Ok Float64.pos_zero) ∧
  (lacks df [CTime; CTotal_Price] → fails_with SchemaError (peak_sales_hour df)) ∧
  (lacks df [CItem; CQuantity] → fails_with SchemaError (top_selling_item df)) ∧
  (lacks df [CItem; CProfit] → fails_with SchemaError (most_profitable_item df)) ∧
  (lacks inventory_df [CStock; CItem] →
   fails_with SchemaError (low_stock_items inventory_df threshold)) ∧
  (lacks sales_df [CItem] ∨ lacks inventory_df [CItem] →
   fails_with SchemaError (unsold_items inventory_df sales_df)) ∧
  (lacks inventory_df [CStock; CItem] → fails_with SchemaError (fast_movers inventory_df)) ∧
  (lacks df [CItem; CQuantity; CTotal_Price; CProfit] →
   fails_with SchemaError (low_margin_high_sellers df margin_threshold qty_threshold)).
Proof.
  repeat split.
  - intros Hl. unfold total_revenue. schema_error df Hl.
  - intros Hl. unfold total_cost. schema_error df Hl.
  - intros Hl. unfold total_profit. schema_error df Hl.
  - intros Hl. unfold gross_margin. schema_error df Hl.
  - intros Hl. unfold total_units_sold. schema_error df Hl.
  - intros Hl Hlen. unfold average_basket_size.
    rewrite bool_decide_true by done. schema_error df Hl.
  - intros Hlen. unfold average_basket_size. by rewrite bool_decide_false by lia.
  - intros Hl. unfold peak_sales_hour. schema_error df Hl.
  - intros Hl. unfold top_selling_item. schema_error df Hl.
  - intros Hl. unfold most_profitable_item. schema_error df Hl.
  - intros Hl. unfold low_stock_items. schema_error inventory_df Hl.
  - intros [Hl|Hl]; unfold unsold_items.
    + lacking Hl. rewrite Hl. exact I.
    + lacking Hl. rewrite Hl. by destruct (Item sales_df).
  - intros Hl. unfold fast_movers. schema_error inventory_df Hl.
  - intros Hl. unfold low_margin_high_sellers. schema_error df Hl.
Qed.

(** C2, as stated, fails: the frame without rows and columns lacks
    [Quantity], and [average_basket_size] returns [0.0] on it. *)
Lemma C2_counterexample :
  lacks (no_columns (F := Float64.t)) [CQuantity] ∧
  average_basket_size (no_columns (F := Float64.t)) = Ok Float64.pos_zero ∧
  ¬ fails_with SchemaError (average_basket_size (no_columns (F := Float64.t))).
Proof.
  split; [|split; [done|by intros []]].
  exists CQuantity. split; [by left|done].
Qed.

(** ** Gross margin *)

(** C3.  When the [Total Price] column sums to a value different from zero,
    [gross_margin] returns [(profit / revenue) * 100] for the two column
    sums; when it sums to zero, in particular on the empty table, it returns
    the float [0.0], which is neither NaN nor an exception.  The sums are
    those of [Series.sum()], in whatever order it adds. *)
Theorem C3_gross_margin {S : Reduction Float64.t}
    (rows : list (SalesRecord Float64.t)) :
  let revenue := sum (total_price <$> rows) in
  let profit := sum (profit <$> rows) in
  (Float64.eqb revenue Float64.pos_zero = false →
   gross_margin (sales_table rows) =
   Ok (SFmul Float64.prec Float64.emax
         (SFdiv Float64.prec Float64.emax profit revenue) (Float64.of_Z 100))) ∧
  (Float64.eqb revenue Float64.pos_zero = true →
   gross_margin (sales_table rows) = Ok Float64.pos_zero) ∧
  gross_margin (sales_table (F := Float64.t) []) = Ok Float64.pos_zero ∧
  Float64.is_nan Float64.pos_zero = false.
Proof.
  intros revenue profit.
  change (gross_margin (sales_table rows)) with
    (if negb (Float64.is_zero revenue)
     then Ok (SFmul Float64.prec Float64.emax
                (SFdiv Float64.prec Float64.emax profit revenue) (Float64.of_Z 100))
     else Ok Float64.pos_zero).
  repeat split.
  - intros Hne. by destruct revenue as [[]|[]| |[]].
  - intros Heq. by destruct revenue as [[]|[]| |[]].
  - unfold gross_margin.
    cbn [sales_table getitem Total_Price Profit mbind result_bind fmap list_fmap
         result_fmap].
    by rewrite sum_nil.
Qed.

(** ** The grouping-and-max metrics *)

Section GroupMax.
Context {S : Reduction Float64.t} (rows : list (SalesRecord Float64.t)).

Lemma peak_sales_hour_rows :
  peak_sales_hour (sales_table rows) =
  idxmax (groupby_sum (time <$> rows) (total_price <$> rows)) ≫= λ peak, Ok (str peak).
Proof. done. Qed.

Lemma top_selling_item_rows :
  top_selling_item (sales_table rows) =
  idxmax (groupby_sum (item <$> rows) (quantity <$> rows)).
Proof. done. Qed.

Lemma most_profitable_item_rows :
  most_profitable_item (sales_table rows) =
  idxmax (groupby_sum (item <$> rows) (profit <$> rows)).
Proof. done. Qed.

Lemma peak_sales_hour_least (t : string) :
  least_max_key time total_price rows t → peak_sales_hour (sales_table rows) = Ok t.
Proof.
  intros Ht. rewrite peak_sales_hour_rows.
  by rewrite (idxmax_groupby_sum time total_price rows t Ht).
Qed.

Lemma top_selling_item_least (i : string) :
  least_max_key item quantity rows i → top_selling_item (sales_table rows) = Ok i.
Proof.
  intros Hi. rewrite top_selling_item_rows.
  exact (idxmax_groupby_sum item quantity rows i Hi).
Qed.

Lemma most_profitable_item_least (i : string) :
  least_max_key item profit rows i → most_profitable_item (sales_table rows) = Ok i.
Proof.
  intros Hi. rewrite most_profitable_item_rows.
  exact (idxmax_groupby_sum item profit rows i Hi).
Qed.
End GroupMax.

(** C4.  On a non-empty sales table, when one key alone attains the maximal
    group sum, [peak_sales_hour] returns the [Time] key with the maximal
    summed [Total Price], [top_selling_item] the [Item] key with the maximal
    summed [Quantity], and [most_profitable_item] the [Item] key with the
    maximal summed [Profit], whatever the sign of that sum.  The sums are
    those that [groupby] forms, in whatever order it adds. *)
Theorem C4_unique_maximum {S : Reduction Float64.t}
    (rows : list (SalesRecord Float64.t)) :
  rows ≠ [] →
  (∀ t, only_max_key time total_price rows t → peak_sales_hour (sales_table rows) = Ok t) ∧
  (∀ i, only_max_key item quantity rows i → top_selling_item (sales_table rows) = Ok i) ∧
  (∀ i, only_max_key item profit rows i → most_profitable_item (sales_table rows) = Ok i).
Proof.
  intros _. repeat split; intros k Hk%only_max_key_least.
  - by apply peak_sales_hour_least.
  - by apply top_selling_item_least.
  - by apply most_profitable_item_least.
Qed.

Section LossDay.
#[local] Existing Instance left_to_right.

Lemma C4_unique_maximum_witness :
  peak_sales_hour (sales_table loss_day) = Ok "09:00" ∧
  top_selling_item (sales_table loss_day) = Ok "Coffee" ∧
  most_profitable_item (sales_table loss_day) = Ok "Coffee".
Proof.
  destruct (C4_unique_maximum loss_day ltac:(done)) as (Hpeak & Htop & Hmost).
  split; [apply Hpeak; only_max "09:00"|].
  split; [apply Htop; only_max "Coffee"|apply Hmost; only_max "Coffee"].
Defined.

End LossDay.

(** C9.  On a non-empty sales table in which several keys tie for the
    maximal group sum, each of the three metrics returns the tied key that
    comes first in sorted (lexicographic) key order: the groups are laid out
    in that order ([group_keys_sorted]) and the first occurrence of the
    maximum is selected ([idxmax_first]).  The sums are those that [groupby]
    forms, in whatever order it adds. *)
Theorem C9_tie_break {S : Reduction Float64.t}
    (rows : list (SalesRecord Float64.t)) :
  rows ≠ [] →
  (∀ t, least_max_key time total_price rows t → peak_sales_hour (sales_table rows) = Ok t) ∧
  (∀ i, least_max_key item quantity rows i → top_selling_item (sales_table rows) = Ok i) ∧
  (∀ i, least_max_key item profit rows i → most_profitable_item (sales_table rows) = Ok i).
Proof.
  intros _. repeat split; intros k Hk.
  - by apply peak_sales_hour_least.
  - by apply top_selling_item_least.
  - by apply most_profitable_item_least.
Qed.

Section TiedDay.
#[local] Existing Instance left_to_right.

Lemma C9_tie_break_witness :
  peak_sales_hour (sales_table tied_day) = Ok "09:00" ∧
  top_selling_item (sales_table tied_day) = Ok "Coffee" ∧
  most_profitable_item (sales_table tied_day) = Ok "Coffee".
Proof.
  destruct (C9_tie_break tied_day ltac:(done)) as (Hpeak & Htop & Hmost).
  split; [apply Hpeak; least_max "09:00"|].
  split; [apply Htop; least_max "Coffee"|apply Hmost; least_max "Coffee"].
Defined.

End TiedDay.

(** ** High sellers with a low margin *)

Lemma mapM_Ok {A B} (f : A → B) (l : list A) :
  mapM (λ x, Ok (f x)) l = Ok (f <$> l).
Proof. induction l as [|x l IH]; [done|]. simpl. by rewrite IH. Qed.

Section LowMargin.
Context {S : Reduction Float64.t} (rows : list (SalesRecord Float64.t)).
Context (margin_threshold : Float64.t) (qty_threshold : Z).

Lemma flagged_keys (ks : list string) :
  g_item <$>
    (filter (λ gm : GroupedRow Float64.t * Float64.t,
               leb qty_threshold (g_quantity gm.1) && ltb gm.2 margin_threshold)
       ((λ g, (g, SFmul Float64.prec Float64.emax
                    (SFdiv Float64.prec Float64.emax (g_profit g) (g_total_price g))
                    (Float64.of_Z 100))) <$>
        ((λ k, {| g_item := k;
                  g_quantity := group_sum item quantity rows k;
                  g_total_price := group_sum item total_price rows k;
                  g_profit := group_sum item profit rows k |}) <$> ks))).*1 =
  filter (λ k, flags rows margin_threshold qty_threshold k = true) ks.
Proof.
  induction ks as [|k ks IH]; [done|]. rewrite !fmap_cons.
  destruct (flags rows margin_threshold qty_threshold k) eqn:Hk.
  - rewrite (filter_cons_True (λ k, flags rows margin_threshold qty_threshold k = true))
      by done.
    rewrite filter_cons_True by (apply Is_true_true; exact Hk).
    rewrite !fmap_cons. simpl. by f_equal.
  - rewrite (filter_cons_False (λ k, flags rows margin_threshold qty_threshold k = true))
      by (by rewrite Hk).
    rewrite filter_cons_False; [done|].
    intros Hflag%Is_true_true.
    change (flags rows margin_threshold qty_threshold k = true) in Hflag. congruence.
Qed.

Lemma agg_sums_rows :
  agg_sums (item <$> rows) (quantity <$> rows) (total_price <$> rows) (profit <$> rows) =
  (λ k, {| g_item := k;
           g_quantity := group_sum item quantity rows k;
           g_total_price := group_sum item total_price rows k;
           g_profit := group_sum item profit rows k |}) <$> group_keys (item <$> rows).
Proof.
  unfold agg_sums. apply list_fmap_ext. intros _ k _. by rewrite !get_group_fmap.
Qed.

(** On [float64] columns the margins are computed without an exception, and
    the function returns the keys of the flagged groups in key order. *)
Lemma low_margin_high_sellers_rows :
  low_margin_high_sellers (sales_table rows) margin_threshold qty_threshold =
  Ok (filter (λ k, flags rows margin_threshold qty_threshold k = true)
        (group_keys (item <$> rows))).
Proof.
  unfold low_margin_high_sellers, margin.
  cbn [sales_table getitem Item Quantity Total_Price Profit
       mbind result_bind div float64 mret result_ret].
  rewrite agg_sums_rows.
  rewrite (mapM_Ok (λ g : GroupedRow Float64.t,
    (g, SFmul Float64.prec Float64.emax
          (SFdiv Float64.prec Float64.emax (g_profit g) (g_total_price g))
          (Float64.of_Z 100)))).
  cbn [mbind result_bind]. by rewrite <- flagged_keys.
Qed.

Lemma elem_of_flagged (k : string) :
  k ∈ filter (λ k, flags rows margin_threshold qty_threshold k = true)
        (group_keys (item <$> rows)) ↔
  k ∈ item <$> rows ∧
  (qty_threshold ≤ group_sum item quantity rows k)%Z ∧
  SFltb (group_margin rows k) margin_threshold = true.
Proof.
  rewrite list_elem_of_filter, elem_of_group_keys. unfold flags.
  rewrite andb_true_iff, Z.leb_le. tauto.
Qed.
End LowMargin.

(** C5.  On a sales table in which every item group has a nonzero summed
    [Total Price], [low_margin_high_sellers] with the default thresholds
    returns exactly the items whose group has a summed [Quantity] of at
    least 5 and a margin, (summed [Profit] / summed [Total Price]) * 100,
    strictly below 10.0.  The sums are those that [agg] forms, in whatever
    order it adds. *)
Theorem C5_low_margin_high_sellers {S : Reduction Float64.t}
    (rows : list (SalesRecord Float64.t)) :
  (∀ k, k ∈ item <$> rows →
        Float64.eqb (group_sum item total_price rows k) Float64.pos_zero = false) →
  ∃ flagged,
    low_margin_high_sellers (sales_table rows)
      default_margin_threshold default_qty_threshold = Ok flagged ∧
    ∀ k, k ∈ flagged ↔
         k ∈ item <$> rows ∧
         (5 ≤ group_sum item quantity rows k)%Z ∧
         SFltb (group_margin rows k) (Float64.of_Z 10) = true.
Proof.
  intros _. eexists. split; [apply low_margin_high_sellers_rows|].
  intros k. apply elem_of_flagged.
Qed.

Section BakeryDay.
#[local] Existing Instance left_to_right.

Lemma C5_low_margin_high_sellers_witness :
  ∃ flagged,
    low_margin_high_sellers (sales_table bakery_day)
      default_margin_threshold default_qty_threshold = Ok flagged ∧
    ∀ k, k ∈ flagged ↔
         k ∈ item <$> bakery_day ∧
         (5 ≤ group_sum item quantity bakery_day k)%Z ∧
         SFltb (group_margin bakery_day k) (Float64.of_Z 10) = true.
Proof.
  apply C5_low_margin_high_sellers.
  intros k Hk. key_cases Hk; vm_compute; reflexivity.
Defined.

Example bakery_day_flagged :
  low_margin_high_sellers (sales_table bakery_day)
    default_margin_threshold default_qty_threshold = Ok ["Bread"].
Proof. vm_compute. reflexivity. Qed.

End BakeryDay.

(** C10, as the code has it.  [low_margin_high_sellers] returns a list on
    every sales table whose money columns are [float64], also when a group's
    summed [Total Price] is zero: no division-by-zero error is raised.  A
    group whose summed [Total Price] and summed [Profit] are both zero has
    the margin NaN, which is below no threshold, so the group is not in the
    returned list. *)
Theorem C10_zero_revenue_group {S : Reduction Float64.t}
    (rows : list (SalesRecord Float64.t))
    (margin_threshold : Float64.t) (qty_threshold : Z) :
  ∃ flagged,
    low_margin_high_sellers (sales_table rows) margin_threshold qty_threshold = Ok flagged ∧
    ∀ k, Float64.is_zero (group_sum item total_price rows k) = true →
         Float64.is_zero (group_sum item profit rows k) = true →
         Float64.is_nan (group_margin rows k) = true ∧ k ∉ flagged.
Proof.
  eexists. split; [apply low_margin_high_sellers_rows|].
  intros k Hrevenue Hprofit.
  assert (Hnan : group_margin rows k = S754_nan).
  { unfold group_margin.
    destruct (group_sum item total_price rows k) as [?| | |]; try done.
    destruct (group_sum item profit rows k) as [?| | |]; done. }
  split; [by rewrite Hnan|].
  intros (_ & _ & Hlt)%elem_of_flagged. by rewrite Hnan in Hlt.
Qed.

(** C10, as stated, fails: the claim is about every sales table, and on a
    table whose money columns hold exact fractions the division of a group's
    summed [Profit] by a summed [Total Price] of zero raises
    [ZeroDivisionError]. *)
Lemma C10_counterexample :
  "Sample" ∈ item <$> free_samples ∧
  group_sum item total_price free_samples "Sample" = Fraction.of_Z 0 ∧
  low_margin_high_sellers (sales_table free_samples)
    default_margin_threshold default_qty_threshold = Raise ZeroDivisionError.
Proof.
  split; [in_keys|]. split; [by apply Qc_is_canon|]. vm_compute. reflexivity.
Qed.

Section GiveawayDay.
#[local] Existing Instance left_to_right.

Example giveaway_day_flagged :
  Float64.is_zero (group_sum item total_price giveaway_day "Pin") = true ∧
  (5 ≤ group_sum item quantity giveaway_day "Pin")%Z ∧
  low_margin_high_sellers (sales_table giveaway_day)
    default_margin_threshold default_qty_threshold = Ok ["Bread"].
Proof. repeat split; vm_compute; try reflexivity. discriminate. Qed.

End GiveawayDay.

(** ** Unsold items *)

(** C6.  [unsold_items] returns, without repetition, exactly the inventory
    items that occur nowhere in the [Item] column of the sales table: nothing
    when every inventory item was sold, every inventory item when the sales
    table is empty. *)
Theorem C6_unsold_items {F} {P : PySet} (inventory : list InventoryRecord)
    (sales : list (SalesRecord F)) :
  ∃ unsold,
    unsold_items (inventory_table inventory) (sales_table sales) = Ok unsold ∧
    NoDup unsold ∧
    (∀ x, x ∈ unsold ↔ x ∈ inv_item <$> inventory ∧ x ∉ item <$> sales) ∧
    ((∀ x, x ∈ inv_item <$> inventory → x ∈ item <$> sales) → unsold = []) ∧
    (sales = [] → ∀ x, x ∈ unsold ↔ x ∈ inv_item <$> inventory).
Proof.
  eexists. split; [reflexivity|].
  assert (Hspec : ∀ x,
    x ∈ set_difference (set_of (inv_item <$> inventory)) (set_of (item <$> sales)) ↔
    x ∈ inv_item <$> inventory ∧ x ∉ item <$> sales).
  { intros x. by rewrite elem_of_set_difference, !elem_of_set_of. }
  split; [apply set_difference_NoDup, set_of_NoDup|]. split; [done|]. split.
  - intros Hsold. apply elem_of_nil_inv. intros x [Hx Hnot]%Hspec. by apply Hnot, Hsold.
  - intros -> x. rewrite Hspec. simpl. split; [by intros [? _]|].
    intros Hx. split; [done|]. apply not_elem_of_nil.
Qed.

(** ** Profit, revenue and cost *)

Lemma total_cost_rows {F} {R : Real F} {S : Reduction F} (rows : list (SalesRecord F)) :
  total_cost (sales_table rows) = Ok (sum (row_cost <$> rows)).
Proof.
  unfold total_cost.
  cbn [sales_table getitem Cost_per_Unit Quantity mbind result_bind mret result_ret].
  do 2 f_equal. induction rows as [|r rows IH]; [done|]. simpl. by f_equal.
Qed.

Section Exact.
Context {F : Type} {R : Real F} {S : Reduction F} {E : ExactReal F}.

Lemma sum_exact (s : list F) : sum s = foldl add zero s.
Proof.
  rewrite sum_adds. unfold fold_sum. generalize (zero (V := F)) as a.
  induction s as [|x s IH]; intros a; [done|]. simpl. by rewrite never_na, IH.
Qed.

Lemma sub_add_sub (a b c d : F) : add (sub a b) (sub c d) = sub (add a c) (add b d).
Proof.
  rewrite <- (add_sub (add (sub a b) (sub c d)) (add b d)). f_equal.
  rewrite (add_assoc (add (sub a b) (sub c d)) b d).
  rewrite <- (add_assoc (sub a b) (sub c d) b), (add_comm (sub c d) b).
  rewrite (add_assoc (sub a b) b (sub c d)).
  rewrite <- (add_assoc (add (sub a b) b) (sub c d) d).
  by rewrite !sub_add.
Qed.

Lemma sub_zero_zero : sub (zero (V := F)) zero = zero.
Proof. by rewrite <- (add_zero_l zero) at 1; rewrite add_sub. Qed.

Lemma foldl_profit (rows : list (SalesRecord F)) (b c : F) :
  consistent rows →
  foldl add (sub b c) (profit <$> rows) =
  sub (foldl add b (total_price <$> rows)) (foldl add c (row_cost <$> rows)).
Proof.
  revert b c. induction rows as [|r rows IH]; intros b c Hrows; [done|].
  rewrite !fmap_cons. cbn [foldl].
  rewrite (Hrows r) by left. rewrite sub_add_sub.
  apply IH. intros r' Hr'. apply Hrows. by right.
Qed.
End Exact.

(** Fractions are exact. *)
#[global] Instance fraction_exact : ExactReal Fraction.t.
Proof.
  split; simpl; unfold Fraction.t.
  - done.
  - apply Qcplus_comm.
  - apply Qcplus_assoc.
  - apply Qcplus_0_l.
  - intros a b. ring.
  - intros a b. ring.
  - done.
Qed.

(** C7, for exact arithmetic.  On a consistent fixture whose money columns
    hold numbers that are added, multiplied and subtracted without rounding,
    as exact fractions are, [total_profit] equals [total_revenue] minus
    [total_cost]. *)
Theorem C7_profit_is_revenue_minus_cost {F} {R : Real F} {S : Reduction F}
    {E : ExactReal F}
    (rows : list (SalesRecord F)) :
  consistent rows →
  ∃ p r c,
    total_profit (sales_table rows) = Ok p ∧
    total_revenue (sales_table rows) = Ok r ∧
    total_cost (sales_table rows) = Ok c ∧
    p = sub r c.
Proof.
  intros Hrows. eexists _, _, _.
  split; [reflexivity|]. split; [reflexivity|]. split; [apply total_cost_rows|].
  rewrite !sum_exact, <- sub_zero_zero at 1. by apply foldl_profit.
Qed.

Lemma C7_profit_is_revenue_minus_cost_witness :
  ∃ p r c,
    total_profit (sales_table coffee_and_tea) = Ok p ∧
    total_revenue (sales_table coffee_and_tea) = Ok r ∧
    total_cost (sales_table coffee_and_tea) = Ok c ∧
    p = sub r c.
Proof.
  apply (C7_profit_is_revenue_minus_cost (E := fraction_exact)).
  intros r Hr. key_cases Hr; apply Qc_is_canon; reflexivity.
Defined.

Section TenthsDay.
#[local] Existing Instance left_to_right.

(** C7, as stated, fails on [float64] columns: the fixture priced in tenths
    is consistent, its profits sum to [0.6], and its revenue minus its cost
    is [0.8 - 0.2 = 0.6000000000000001]. *)
Lemma C7_counterexample :
  consistent tenths_day ∧
  ∃ p r c,
    total_profit (sales_table tenths_day) = Ok p ∧
    total_revenue (sales_table tenths_day) = Ok r ∧
    total_cost (sales_table tenths_day) = Ok c ∧
    Float64.eqb p (sub r c) = false.
Proof.
  split.
  - intros r Hr. key_cases Hr; reflexivity.
  - eexists _, _, _. repeat split; vm_compute; reflexivity.
Qed.

End TenthsDay.

(** ** The report *)

Lemma append_assoc (s1 s2 s3 : string) : (s1 +:+ s2) +:+ s3 = s1 +:+ s2 +:+ s3.
Proof.
  induction s1 as [|c s1 IH]; [reflexivity|].
  change (String c ((s1 +:+ s2) +:+ s3) = String c (s1 +:+ s2 +:+ s3)). by f_equal.
Qed.

Lemma append_empty_r (s : string) : s +:+ EmptyString = s.
Proof.
  induction s as [|c s IH]; [reflexivity|].
  change (String c (s +:+ EmptyString) = String c s). by f_equal.
Qed.

Lemma list_truthy_items (l : option (list string)) :
  list_truthy l = true ↔ items_of l ≠ [].
Proof. by destruct l as [[|x l]|]. Qed.

(** C8.  The report is the headline followed by one line for each of the
    low-stock, unsold, fast-mover and low-margin-high-seller lists that is
    not empty, and by nothing for a list that is empty or absent; a line is a
    newline, the fixed label of the metric, the items joined by a comma and a
    space, and a full stop. *)
Theorem C8_diagnostic_lines (format : string → Float64.t → string)
    (total_revenue total_cost total_profit gross_margin : Float64.t)
    (total_units_sold number_of_transactions : Z) (average_basket_size : Float64.t)
    (peak_sales_hour top_selling_item most_profitable_item : string)
    (low_stock_items unsold_items fast_movers low_margin_high_sellers : option (list string)) :
  natural_language_summary format total_revenue total_cost total_profit gross_margin
    total_units_sold number_of_transactions average_basket_size peak_sales_hour
    top_selling_item most_profitable_item
    low_stock_items unsold_items fast_movers low_margin_high_sellers =
  headline format total_revenue total_profit gross_margin total_units_sold
    number_of_transactions average_basket_size peak_sales_hour top_selling_item
    most_profitable_item +:+
  String.concat EmptyString ((λ line, newline +:+ line) <$>
    diagnostic_lines low_stock_items unsold_items fast_movers low_margin_high_sellers).
Proof.
  unfold natural_language_summary, diagnostic_lines.
  generalize (headline format total_revenue total_profit gross_margin total_units_sold
    number_of_transactions average_basket_size peak_sales_hour top_selling_item
    most_profitable_item) as h.
  intros h.
  destruct low_stock_items as [[|a1 l1]|], unsold_items as [[|a2 l2]|],
    fast_movers as [[|a3 l3]|], low_margin_high_sellers as [[|a4 l4]|];
    cbn [list_truthy items_of default];
    repeat (rewrite filter_cons_True by done) ||
           (rewrite filter_cons_False by (intros Hne; by apply Hne));
    rewrite ?filter_nil; cbn [fmap list_fmap String.concat fst snd];
    rewrite ?append_assoc, ?append_empty_r; reflexivity.
Qed.

Example report_lines :
  diagnostic_lines (Some ["Coffee"; "Milk"]) (Some []) None (Some ["Bread"]) =
  [ "Low stock items: Coffee, Milk."; "High-selling, low-margin items: Bread." ].
Proof. reflexivity. Qed.

(** * Further properties of the metric functions *)

(** ** Integer sums *)

Lemma wrap64_range (z : Z) : - 2 ^ 63 ≤ wrap64 z < 2 ^ 63.
Proof. unfold wrap64. pose proof (Z.mod_pos_bound (z + 2 ^ 63) (2 ^ 64)). lia. Qed.

Lemma wrap64_small (z : Z) : - 2 ^ 63 ≤ z < 2 ^ 63 → wrap64 z = z.
Proof. intros Hz. unfold wrap64. rewrite Z.mod_small by lia. lia. Qed.

Lemma wrap64_add_l (a b : Z) : wrap64 (wrap64 a + b) = wrap64 (a + b).
Proof.
  unfold wrap64. f_equal.
  replace ((a + 2 ^ 63) mod 2 ^ 64 - 2 ^ 63 + b + 2 ^ 63)
    with ((a + 2 ^ 63) mod 2 ^ 64 + b) by lia.
  rewrite Zplus_mod_idemp_l. f_equal. lia.
Qed.

Lemma exact_sum_perm (l k : list Z) : l ≡ₚ k → exact_sum l = exact_sum k.
Proof. unfold exact_sum. induction 1; simpl; lia. Qed.

(** An [int64] column sums to the true sum brought back into range, as a
    Series and as a group. *)
Lemma fold_sum_int64 (l : list Z) : fold_sum l = wrap64 (exact_sum l).
Proof.
  unfold fold_sum. cbn [isna int64 add zero].
  assert (Hfold : ∀ a,
    foldl (λ acc x, wrap64 (acc + x)) (wrap64 a) l = wrap64 (a + exact_sum l)).
  { induction l as [|x l IH]; intros a; cbn [foldl exact_sum foldr].
    - f_equal. lia.
    - rewrite wrap64_add_l, IH. f_equal. unfold exact_sum. lia. }
  apply (Hfold 0).
Qed.

Lemma sum_int64 (l : list Z) : sum l = wrap64 (exact_sum l).
Proof. apply fold_sum_int64. Qed.

Lemma agg_sum_int64 (l : list Z) : agg_sum l = wrap64 (exact_sum l).
Proof. apply fold_sum_int64. Qed.

Section Units.
Context {F : Type} {R : Real F} {S : Reduction F} {P : PySet}.

(** X2.  [total_units_sold] is the true sum of the quantities brought back
    into the [int64] range, and it is the true sum itself when that fits. *)
Theorem total_units_sold_wraps (rows : list (SalesRecord F)) :
  total_units_sold (sales_table rows) = Ok (wrap64 (exact_sum (quantity <$> rows))) ∧
  (- 2 ^ 63 ≤ exact_sum (quantity <$> rows) < 2 ^ 63 →
   total_units_sold (sales_table rows) = Ok (exact_sum (quantity <$> rows))).
Proof.
  assert (Hsum : total_units_sold (sales_table rows) =
                 Ok (wrap64 (exact_sum (quantity <$> rows)))).
  { unfold total_units_sold.
    cbn [sales_table getitem Quantity mbind result_bind mret result_ret].
    by rewrite sum_int64. }
  split; [done|]. intros Hrange. by rewrite Hsum, wrap64_small.
Qed.

(** X5.  On a frame with rows, [average_basket_size] is the float quotient
    of what [total_units_sold] and [number_of_transactions] return. *)
Theorem average_basket_size_is_units_per_transaction (df : DataFrame F) (units n : Z) :
  total_units_sold df = Ok units →
  number_of_transactions df = Ok n →
  n ≠ 0 →
  average_basket_size df =
  Ok (SFdiv Float64.prec Float64.emax (Float64.of_Z units) (Float64.of_Z n)).
Proof.
  unfold total_units_sold, number_of_transactions, average_basket_size.
  destruct (Quantity df) as [q|]; [|done].
  cbn [getitem mbind result_bind mret result_ret].
  intros [= <-] [= <-] Hn. by rewrite bool_decide_true by lia.
Qed.

(** X1.  The metrics that do not take a maximum return their neutral value
    on a table without rows: the four sums and the transaction count are
    zero, the basket size is [0.0], and the four list-valued metrics return
    the empty list. *)
Theorem empty_tables (sales_df : DataFrame F) (threshold qty_threshold : Z)
    (margin_threshold : F) :
  total_revenue (sales_table (F := F) []) = Ok zero ∧
  total_cost (sales_table (F := F) []) = Ok zero ∧
  total_profit (sales_table (F := F) []) = Ok zero ∧
  total_units_sold (sales_table (F := F) []) = Ok 0 ∧
  number_of_transactions (sales_table (F := F) []) = Ok 0 ∧
  average_basket_size (sales_table (F := F) []) = Ok Float64.pos_zero ∧
  low_margin_high_sellers (sales_table (F := F) []) margin_threshold qty_threshold = Ok [] ∧
  low_stock_items (F := F) (inventory_table []) threshold = Ok [] ∧
  fast_movers (F := F) (inventory_table []) = Ok [] ∧
  (¬ lacks sales_df [CItem] → unsold_items (inventory_table []) sales_df = Ok []).
Proof.
  repeat split; try done.
  - unfold total_revenue.
    cbn [sales_table getitem Total_Price mbind result_bind mret result_ret fmap list_fmap].
    by rewrite sum_nil.
  - unfold total_cost.
    cbn [sales_table getitem Cost_per_Unit Quantity mbind result_bind mret result_ret
         fmap list_fmap zip_with].
    by rewrite sum_nil.
  - unfold total_profit.
    cbn [sales_table getitem Profit mbind result_bind mret result_ret fmap list_fmap].
    by rewrite sum_nil.
  - intros Hitem. unfold unsold_items.
    destruct (Item sales_df) as [i|] eqn:Hi.
    + cbn [getitem fmap result_fmap inventory_table Item mbind result_bind mret result_ret].
      f_equal. apply elem_of_nil_inv. intros x.
      rewrite elem_of_set_difference, elem_of_set_of.
      intros [Hx _]. by apply elem_of_nil in Hx.
    + destruct Hitem. exists CItem. split; [by left|done].
Qed.
End Units.

(** ** Row order *)

Lemma group_keys_permutation (keys keys' : list string) :
  keys ≡ₚ keys' → group_keys keys = group_keys keys'.
Proof.
  intros Hperm.
  apply (StronglySorted_unique String.le); [apply group_keys_sorted..|].
  rewrite !group_keys_perm.
  apply NoDup_Permutation; [apply NoDup_remove_dups..|].
  intros k. rewrite !elem_of_remove_dups. by rewrite Hperm.
Qed.

Section RowOrder.
Context {F : Type} {R : Real F}.

Lemma group_quantity_permutation (rows rows' : list (SalesRecord F)) (k : string) :
  rows ≡ₚ rows' → group_sum item quantity rows k = group_sum item quantity rows' k.
Proof.
  intros Hperm. unfold group_sum, group_rows. rewrite !agg_sum_int64.
  f_equal. apply exact_sum_perm. by rewrite Hperm.
Qed.

(** X4.  The metrics computed from the integer columns do not depend on the
    order of the rows: [int64] addition is associative and commutative even
    when it wraps. *)
Theorem integer_metrics_ignore_row_order (rows rows' : list (SalesRecord F)) :
  rows ≡ₚ rows' →
  total_units_sold (sales_table rows') = total_units_sold (sales_table rows) ∧
  number_of_transactions (sales_table rows') = number_of_transactions (sales_table rows) ∧
  average_basket_size (sales_table rows') = average_basket_size (sales_table rows) ∧
  top_selling_item (sales_table rows') = top_selling_item (sales_table rows).
Proof.
  intros Hperm.
  assert (Hunits : sum (quantity <$> rows') = sum (quantity <$> rows)).
  { rewrite !sum_int64. f_equal. apply exact_sum_perm. by rewrite Hperm. }
  assert (Hlen : length rows' = length rows) by (by rewrite Hperm).
  repeat split.
  - unfold total_units_sold.
    cbn [sales_table getitem Quantity mbind result_bind mret result_ret]. by rewrite Hunits.
  - unfold number_of_transactions. cbn [sales_table len]. by rewrite Hlen.
  - unfold average_basket_size. cbn [sales_table len getitem Quantity mbind result_bind].
    by rewrite Hunits, Hlen.
  - change (idxmax (groupby_sum (item <$> rows') (quantity <$> rows')) =
            idxmax (groupby_sum (item <$> rows) (quantity <$> rows))).
    rewrite !groupby_sum_rows. f_equal.
    rewrite (group_keys_permutation (item <$> rows') (item <$> rows)) by (by rewrite Hperm).
    apply list_fmap_ext. intros _ k _. f_equal. symmetry.
    by apply group_quantity_permutation.
Qed.
End RowOrder.

(** ** Existence of the maximum *)

#[global] Instance int64_total : DtypeTotal Z.
Proof. split. simpl. intros a b _ _. rewrite !Z.leb_le. lia. Qed.

#[global] Instance float64_total : DtypeTotal Float64.t.
Proof.
  split. simpl. unfold SFleb, SFcompare.
  intros [[]|[]| |[] ma ea] [[]|[]| |[] mb eb] Ha Hb;
    simpl; try done; try tauto; cmp_cases; subst; try tauto; lia.
Qed.

Section LeastMax.
Context {V : Type} {D : Dtype V} {O : DtypeOrder V} {T : DtypeTotal V}.

Lemma leb_refl (a : V) : isna a = false → leb a a = true.
Proof. intros Ha. by destruct (leb_total a a Ha Ha). Qed.

(** A sorted, non-empty layout of values that are not missing has a first
    label of maximal value. *)
Lemma exists_least_max (g : string → V) (ks : list string) :
  ks ≠ [] → StronglySorted String.le ks →
  (∀ k, k ∈ ks → isna (g k) = false) →
  ∃ k, k ∈ ks ∧
       (∀ k', k' ∈ ks → leb (g k') (g k) = true) ∧
       (∀ k', k' ∈ ks → (∀ k'', k'' ∈ ks → leb (g k'') (g k') = true) → String.le k k').
Proof.
  induction ks as [|k0 ks IH]; [done|]. intros _ Hsorted Hna.
  apply StronglySorted_cons in Hsorted as [Hfirst Hsorted].
  rewrite Forall_forall in Hfirst.
  destruct (decide (ks = [])) as [->|Hne].
  { exists k0. split; [by left|]. split.
    - intros k' ->%list_elem_of_singleton. apply leb_refl, Hna. by left.
    - by intros k' ->%list_elem_of_singleton _. }
  destruct (IH Hne Hsorted) as (m & Hm & Hmax & Hleast).
  { intros k Hk. apply Hna. by right. }
  destruct (leb (g m) (g k0)) eqn:Hmk.
  - exists k0. split; [by left|]. split.
    + intros k' [->|Hk']%elem_of_cons; [apply leb_refl, Hna; by left|].
      eapply leb_trans; [by apply Hmax|done].
    + intros k' [->|Hk']%elem_of_cons _; [done|by apply Hfirst].
  - exists m. split; [by right|]. split.
    + intros k' [->|Hk']%elem_of_cons; [|by apply Hmax].
      destruct (leb_total (g k0) (g m)) as [?|Hmk0]; [apply Hna; by left|apply Hna; by right|done|].
      by rewrite Hmk0 in Hmk.
    + intros k' [->|Hk']%elem_of_cons Hk'max.
      * rewrite Hk'max in Hmk by (by right). done.
      * apply Hleast; [done|]. intros k'' Hk''. apply Hk'max. by right.
Qed.
End LeastMax.

Section GroupMaxExists.
Context {F V : Type} {D : Dtype V} {S : Reduction V}.
Context {O : DtypeOrder V} {T : DtypeTotal V}.

Lemma exists_least_max_key (key : SalesRecord F → string) (col : SalesRecord F → V)
    (rows : list (SalesRecord F)) :
  rows ≠ [] →
  (∀ k, k ∈ key <$> rows → isna (group_sum key col rows k) = false) →
  ∃ k, least_max_key key col rows k.
Proof.
  intros Hrows Hna.
  destruct (exists_least_max (group_sum key col rows) (group_keys (key <$> rows)))
    as (k & Hk & Hmax & Hleast).
  - destruct rows as [|r rows]; [done|]. intros Hnil.
    assert (Hr : key r ∈ group_keys (key <$> r :: rows))
      by (apply elem_of_group_keys; left).
    rewrite Hnil in Hr. by apply elem_of_nil in Hr.
  - apply group_keys_sorted.
  - intros k Hk. apply Hna. by apply (proj1 (elem_of_group_keys _ _)).
  - exists k. split; [split|].
    + by apply elem_of_group_keys.
    + intros k' Hk'. by apply Hmax, elem_of_group_keys.
    + intros k' [Hk' Hk'max]. apply Hleast; [by apply elem_of_group_keys|].
      intros k'' Hk''. apply Hk'max. by apply (proj1 (elem_of_group_keys _ _)).
Qed.
End GroupMaxExists.

(** X8.  On every sales table with at least one row, [top_selling_item]
    returns an item: the first, in key order, of the items whose summed
    quantity is maximal. *)
Theorem top_selling_item_returns_least_maximum {F} {R : Real F}
    (rows : list (SalesRecord F)) :
  rows ≠ [] →
  ∃ i, least_max_key item quantity rows i ∧ top_selling_item (sales_table rows) = Ok i.
Proof.
  intros Hrows.
  destruct (exists_least_max_key item quantity rows Hrows) as [i Hi]; [done|].
  exists i. split; [done|].
  change (idxmax (groupby_sum (item <$> rows) (quantity <$> rows)) = Ok i).
  exact (idxmax_groupby_sum item quantity rows i Hi).
Qed.

(** ** The returned key is a key of the table *)

Lemma argmax_from_elem {V} {D : Dtype V} (best : string * V) (s : list (string * V)) :
  argmax_from best s ∈ best :: s.
Proof.
  revert best. induction s as [|x s IH]; intros best; simpl; [by left|].
  destruct (ltb best.2 x.2).
  - right. apply IH.
  - pose proof (IH best) as [Heq|Hin]%elem_of_cons; [rewrite Heq; by left|by do 2 right].
Qed.

Lemma idxmax_elem {V} {D : Dtype V} (s : list (string * V)) (k : string) :
  idxmax s = Ok k → k ∈ s.*1.
Proof.
  unfold idxmax.
  destruct (filter (λ kv : string * V, isna kv.2 = false) s) as [|x s'] eqn:Hs; [done|].
  intros [= <-]. apply list_elem_of_fmap. exists (argmax_from x s'). split; [done|].
  assert (Hin : argmax_from x s' ∈ filter (λ kv : string * V, isna kv.2 = false) s)
    by (rewrite Hs; apply argmax_from_elem).
  by apply list_elem_of_filter in Hin as [_ Hin].
Qed.

Lemma groupby_sum_keys {V} {D : Dtype V} {S : Reduction V} (keys : list string)
    (vals : list V) (k : string) :
  k ∈ (groupby_sum keys vals).*1 ↔ k ∈ keys.
Proof.
  unfold groupby_sum. rewrite <- list_fmap_compose.
  rewrite <- (elem_of_group_keys keys k). by rewrite list_fmap_id.
Qed.

(** X7.  A key returned by [peak_sales_hour], [top_selling_item] or
    [most_profitable_item] occurs in the [Time], respectively [Item], column
    of the frame. *)
Theorem leaders_are_keys_of_the_table {F} {R : Real F} {S : Reduction F}
    (df : DataFrame F) (k : string) :
  (peak_sales_hour df = Ok k → ∃ t, Time df = Some t ∧ k ∈ t) ∧
  (top_selling_item df = Ok k → ∃ i, Item df = Some i ∧ k ∈ i) ∧
  (most_profitable_item df = Ok k → ∃ i, Item df = Some i ∧ k ∈ i).
Proof.
  unfold peak_sales_hour, top_selling_item, most_profitable_item. repeat split.
  - destruct (Time df) as [t|]; [|done]. destruct (Total_Price df) as [p|]; [|done].
    cbn [getitem mbind result_bind mret result_ret].
    destruct (idxmax (groupby_sum t p)) as [peak|] eqn:Hpeak; [|done].
    intros [= <-]. exists t. split; [done|].
    by apply idxmax_elem, groupby_sum_keys in Hpeak.
  - destruct (Item df) as [i|]; [|done]. destruct (Quantity df) as [q|]; [|done].
    cbn [getitem mbind result_bind]. intros Hk%idxmax_elem%groupby_sum_keys. eauto.
  - destruct (Item df) as [i|]; [|done]. destruct (Profit df) as [p|]; [|done].
    cbn [getitem mbind result_bind]. intros Hk%idxmax_elem%groupby_sum_keys. eauto.
Qed.

(** ** Existence of the leaders *)

Section Leaders.
Context {S : Reduction Float64.t} (rows : list (SalesRecord Float64.t)).

(** X9.  On a sales table with at least one row in which no time window's
    summed revenue is NaN, [peak_sales_hour] returns a time: the first, in
    key order, of the times whose summed revenue is maximal. *)
Theorem peak_sales_hour_returns_least_maximum :
  rows ≠ [] →
  (∀ t, t ∈ time <$> rows → Float64.is_nan (group_sum time total_price rows t) = false) →
  ∃ t, least_max_key time total_price rows t ∧ peak_sales_hour (sales_table rows) = Ok t.
Proof.
  intros Hrows Hnotna.
  destruct (exists_least_max_key time total_price rows Hrows) as [t Ht];
    [exact Hnotna|].
  exists t. split; [done|]. by apply peak_sales_hour_least.
Qed.

(** X10.  On a sales table with at least one row in which no item's summed
    profit is NaN, [most_profitable_item] returns an item: the first, in key
    order, of the items whose summed profit is maximal. *)
Theorem most_profitable_item_returns_least_maximum :
  rows ≠ [] →
  (∀ i, i ∈ item <$> rows → Float64.is_nan (group_sum item profit rows i) = false) →
  ∃ i, least_max_key item profit rows i ∧ most_profitable_item (sales_table rows) = Ok i.
Proof.
  intros Hrows Hnotna.
  destruct (exists_least_max_key item profit rows Hrows) as [i Hi];
    [exact Hnotna|].
  exists i. split; [done|]. by apply most_profitable_item_least.
Qed.
End Leaders.

(** ** More on high sellers with a low margin *)

Lemma StronglySorted_filter {A} (R : relation A) (P : A → Prop) `{∀ x, Decision (P x)}
    (l : list A) :
  StronglySorted R l → StronglySorted R (filter P l).
Proof.
  induction l as [|x l IH]; [done|]. intros [Hx Hl]%StronglySorted_cons.
  destruct (decide (P x)) as [HP|HP].
  - rewrite filter_cons_True by done. apply StronglySorted_cons. split; [|by apply IH].
    apply Forall_forall. intros y [_ Hy]%list_elem_of_filter.
    by apply (proj1 (Forall_forall _ _) Hx).
  - rewrite filter_cons_False by done. by apply IH.
Qed.

Lemma SFltb_SFleb_trans (a b c : spec_float) :
  SFltb a b = true → SFleb b c = true → SFltb a c = true.
Proof.
  rewrite !SFltb_SFleb. intros [Hab Hba]%andb_true_iff Hbc.
  apply negb_true_iff in Hba. apply andb_true_iff. split.
  - by apply (SFleb_trans a b c).
  - apply negb_true_iff. destruct (SFleb c a) eqn:Hca; [|done].
    by rewrite (SFleb_trans b c a Hbc Hca) in Hba.
Qed.

Section LowMarginOrder.
Context {S : Reduction Float64.t} (rows : list (SalesRecord Float64.t)).

(** X16.  The list that [low_margin_high_sellers] returns is in ascending
    key order, has no repetition, and holds items of the table only. *)
Theorem low_margin_high_sellers_sorted (margin_threshold : Float64.t) (qty_threshold : Z) :
  ∃ flagged,
    low_margin_high_sellers (sales_table rows) margin_threshold qty_threshold = Ok flagged ∧
    StronglySorted String.le flagged ∧
    NoDup flagged ∧
    flagged ⊆ item <$> rows.
Proof.
  eexists. split; [apply low_margin_high_sellers_rows|]. split; [|split].
  - apply StronglySorted_filter, group_keys_sorted.
  - apply NoDup_filter, group_keys_NoDup.
  - intros k [_ Hk]%list_elem_of_filter. by apply elem_of_group_keys.
Qed.

(** X17.  Lowering the quantity threshold or raising the margin threshold of
    [low_margin_high_sellers] only adds items. *)
Theorem low_margin_high_sellers_monotone (m1 m2 : Float64.t) (q1 q2 : Z)
    (strict lenient : list string) :
  SFleb m1 m2 = true → (q1 ≤ q2)%Z →
  low_margin_high_sellers (sales_table rows) m1 q2 = Ok strict →
  low_margin_high_sellers (sales_table rows) m2 q1 = Ok lenient →
  sublist strict lenient.
Proof.
  intros Hm Hq. rewrite !low_margin_high_sellers_rows. intros [= <-] [= <-].
  generalize (group_keys (item <$> rows)) as ks.
  induction ks as [|k ks IH]; [done|].
  destruct (flags rows m1 q2 k) eqn:H1.
  - assert (H2 : flags rows m2 q1 k = true).
    { unfold flags in *. apply andb_true_iff in H1 as [Hqty Hmargin].
      apply andb_true_iff. split.
      - apply Z.leb_le. apply Z.leb_le in Hqty. lia.
      - by apply (SFltb_SFleb_trans _ m1). }
    rewrite (filter_cons_True (λ k, flags rows m1 q2 k = true)) by done.
    rewrite (filter_cons_True (λ k, flags rows m2 q1 k = true)) by done.
    by constructor.
  - rewrite (filter_cons_False (λ k, flags rows m1 q2 k = true)) by (by rewrite H1).
    destruct (flags rows m2 q1 k) eqn:H2.
    + rewrite (filter_cons_True (λ k, flags rows m2 q1 k = true)) by done.
      by constructor.
    + by rewrite (filter_cons_False (λ k, flags rows m2 q1 k = true)) by (by rewrite H2).
Qed.

(** X18.  A group without revenue has an infinite margin.  With a positive
    summed profit it is never flagged; with a negative one it is flagged
    exactly when its quantity reaches the quantity threshold and the margin
    threshold is above minus infinity. *)
Theorem giveaway_groups (margin_threshold : Float64.t) (qty_threshold : Z) (k : string) :
  group_sum item total_price rows k = Float64.pos_zero →
  ∃ flagged,
    low_margin_high_sellers (sales_table rows) margin_threshold qty_threshold = Ok flagged ∧
    (SFltb Float64.pos_zero (group_sum item profit rows k) = true →
     group_margin rows k = S754_infinity false ∧ k ∉ flagged) ∧
    (SFltb (group_sum item profit rows k) Float64.pos_zero = true →
     group_margin rows k = S754_infinity true ∧
     (k ∈ flagged ↔
      k ∈ item <$> rows ∧ (qty_threshold ≤ group_sum item quantity rows k)%Z ∧
      SFltb (S754_infinity true) margin_threshold = true)).
Proof.
  intros Hrevenue. eexists. split; [apply low_margin_high_sellers_rows|].
  split; intros Hprofit.
  - assert (Hinf : group_margin rows k = S754_infinity false).
    { unfold group_margin. rewrite Hrevenue.
      by destruct (group_sum item profit rows k) as [[]|[]| |[] m e]. }
    split; [exact Hinf|].
    intros (_ & _ & Hlt)%elem_of_flagged. rewrite Hinf in Hlt.
    by destruct margin_threshold as [[]|[]| |[] m e].
  - assert (Hinf : group_margin rows k = S754_infinity true).
    { unfold group_margin. rewrite Hrevenue.
      by destruct (group_sum item profit rows k) as [[]|[]| |[] m e]. }
    split; [exact Hinf|]. rewrite elem_of_flagged. by rewrite Hinf.
Qed.
End LowMarginOrder.

(** ** Sold and unsold *)

Lemma unsold_items_not_sold {F} {P : PySet} (inventory_df : DataFrame F)
    (sales : list (SalesRecord F)) (unsold : list string) (x : string) :
  unsold_items inventory_df (sales_table sales) = Ok unsold →
  x ∈ unsold → x ∉ item <$> sales.
Proof.
  unfold unsold_items. cbn [sales_table Item getitem fmap result_fmap mbind result_bind].
  destruct (Item inventory_df) as [i|]; [|done].
  cbn [getitem fmap result_fmap mbind result_bind mret result_ret]. intros [= <-].
  rewrite elem_of_set_difference, !elem_of_set_of. tauto.
Qed.

(** X15.  Nothing that [top_selling_item], [most_profitable_item] or
    [low_margin_high_sellers] returns for a sales table is among the
    [unsold_items] of that sales table. *)
Theorem leaders_are_not_unsold {S : Reduction Float64.t} {P : PySet}
    (inventory_df : DataFrame Float64.t)
    (sales : list (SalesRecord Float64.t)) (unsold : list string)
    (margin_threshold : Float64.t) (qty_threshold : Z) :
  unsold_items inventory_df (sales_table sales) = Ok unsold →
  (∀ i, top_selling_item (sales_table sales) = Ok i → i ∉ unsold) ∧
  (∀ i, most_profitable_item (sales_table sales) = Ok i → i ∉ unsold) ∧
  (∀ flagged,
     low_margin_high_sellers (sales_table sales) margin_threshold qty_threshold = Ok flagged →
     ∀ i, i ∈ flagged → i ∉ unsold).
Proof.
  intros Hunsold. repeat split.
  - intros i Hi%idxmax_elem%groupby_sum_keys Hin.
    by apply (unsold_items_not_sold _ _ _ _ Hunsold Hin).
  - intros i Hi%idxmax_elem%groupby_sum_keys Hin.
    by apply (unsold_items_not_sold _ _ _ _ Hunsold Hin).
  - intros flagged Hflagged i Hi Hin.
    rewrite low_margin_high_sellers_rows in Hflagged. injection Hflagged as <-.
    apply elem_of_flagged in Hi as [Hi _].
    by apply (unsold_items_not_sold _ _ _ _ Hunsold Hin).
Qed.

(** X14.  [unsold_items] depends on the two [Item] columns as sets only:
    neither the order of the rows nor repeated items change the items it
    returns, so that the two lists are rearrangements of each other. *)
Theorem unsold_items_depends_on_item_sets {F} {P : PySet}
    (inventory inventory' : list InventoryRecord) (sales sales' : list (SalesRecord F)) :
  (∀ x, x ∈ inv_item <$> inventory ↔ x ∈ inv_item <$> inventory') →
  (∀ x, x ∈ item <$> sales ↔ x ∈ item <$> sales') →
  ∃ unsold unsold',
    unsold_items (inventory_table inventory) (sales_table sales) = Ok unsold ∧
    unsold_items (inventory_table inventory') (sales_table sales') = Ok unsold' ∧
    unsold ≡ₚ unsold'.
Proof.
  intros Hinv Hsales. eexists _, _. split; [reflexivity|]. split; [reflexivity|].
  apply NoDup_Permutation; [apply set_difference_NoDup, set_of_NoDup..|].
  intros x. rewrite !elem_of_set_difference, !elem_of_set_of.
  by rewrite Hinv, Hsales.
Qed.

(** ** What the report does not depend on *)

(** X19.  The report does not depend on [total_cost], and an absent list
    argument gives the same report as an empty one. *)
Theorem report_ignores_cost_and_absence (format : string → Float64.t → string)
    (total_revenue total_cost total_cost' total_profit gross_margin : Float64.t)
    (total_units_sold number_of_transactions : Z) (average_basket_size : Float64.t)
    (peak_sales_hour top_selling_item most_profitable_item : string)
    (l1 l2 l3 l4 l1' l2' l3' l4' : option (list string)) :
  items_of l1 = items_of l1' → items_of l2 = items_of l2' →
  items_of l3 = items_of l3' → items_of l4 = items_of l4' →
  natural_language_summary format total_revenue total_cost total_profit gross_margin
    total_units_sold number_of_transactions average_basket_size peak_sales_hour
    top_selling_item most_profitable_item l1 l2 l3 l4 =
  natural_language_summary format total_revenue total_cost' total_profit gross_margin
    total_units_sold number_of_transactions average_basket_size peak_sales_hour
    top_selling_item most_profitable_item l1' l2' l3' l4'.
Proof.
  intros H1 H2 H3 H4. unfold natural_language_summary.
  assert (Htruthy : ∀ l l', items_of l = items_of l' → list_truthy l = list_truthy l').
  { intros [[|x l]|] [[|x' l']|]; simpl; by intros; simplify_eq. }
  by rewrite (Htruthy _ _ H1), (Htruthy _ _ H2), (Htruthy _ _ H3), (Htruthy _ _ H4),
    H1, H2, H3, H4.
Qed.

(** ** Groups partition the rows *)

Lemma wrap64_add_r (a b : Z) : wrap64 (a + wrap64 b) = wrap64 (a + b).
Proof. by rewrite (Z.add_comm a), wrap64_add_l, (Z.add_comm b). Qed.

Lemma wrap64_exact_sum_fmap (l : list Z) :
  wrap64 (exact_sum (wrap64 <$> l)) = wrap64 (exact_sum l).
Proof.
  induction l as [|x l IH]; [done|]. rewrite fmap_cons. cbn [exact_sum foldr].
  fold (exact_sum (wrap64 <$> l)). fold (exact_sum l).
  by rewrite wrap64_add_l, <- wrap64_add_r, IH, wrap64_add_r.
Qed.

Lemma exact_sum_single_key (f : string → Z) (v : Z) (k0 : string) (ks : list string) :
  NoDup ks → k0 ∈ ks →
  exact_sum ((λ k, (if decide (k0 = k) then v else 0) + f k) <$> ks) =
  v + exact_sum (f <$> ks).
Proof.
  induction ks as [|k ks IH]; intros Hnodup Hin; [by apply elem_of_nil in Hin|].
  apply NoDup_cons in Hnodup as [Hk Hnodup]. rewrite !fmap_cons. cbn [exact_sum foldr].
  fold (exact_sum (f <$> ks)).
  fold (exact_sum ((λ k, (if decide (k0 = k) then v else 0) + f k) <$> ks)).
  destruct (decide (k0 = k)) as [->|Hne].
  - assert (exact_sum ((λ k', (if decide (k = k') then v else 0) + f k') <$> ks) =
            exact_sum (f <$> ks)) as ->; [|lia].
    f_equal. apply list_fmap_ext. intros _ k' Hk'%list_elem_of_lookup_2.
    destruct (decide (k = k')) as [->|]; [done|lia].
  - apply elem_of_cons in Hin as [?|Hin]; [done|]. rewrite IH by done. lia.
Qed.

Lemma exact_sum_groups {F} (key : SalesRecord F → string) (col : SalesRecord F → Z)
    (rows : list (SalesRecord F)) (ks : list string) :
  NoDup ks → (∀ r, r ∈ rows → key r ∈ ks) →
  exact_sum ((λ k, exact_sum (col <$> group_rows key rows k)) <$> ks) =
  exact_sum (col <$> rows).
Proof.
  intros Hnodup. induction rows as [|r rows IH]; intros Hkeys.
  - clear Hnodup Hkeys. induction ks as [|k ks IHks]; [done|].
    rewrite fmap_cons. unfold exact_sum in *. cbn [foldr]. by rewrite IHks.
  - rewrite fmap_cons. cbn [exact_sum foldr]. fold (exact_sum (col <$> rows)).
    rewrite <- IH by (intros r' Hr'; apply Hkeys; by right).
    rewrite <- (exact_sum_single_key _ (col r) (key r) ks Hnodup) by (apply Hkeys; left).
    f_equal. apply list_fmap_ext. intros _ k _. unfold group_rows.
    destruct (decide (key r = k)) as [Hk|Hk].
    + by rewrite filter_cons_True by done.
    + rewrite filter_cons_False by done. lia.
Qed.

(** X3.  The per-item quantities that [top_selling_item] compares add up to
    what [total_units_sold] returns. *)
Theorem group_quantities_add_up {F} {R : Real F} (rows : list (SalesRecord F)) :
  total_units_sold (sales_table rows) =
  Ok (sum (groupby_sum (item <$> rows) (quantity <$> rows)).*2).
Proof.
  unfold total_units_sold.
  cbn [sales_table getitem Quantity mbind result_bind mret result_ret]. f_equal.
  rewrite groupby_sum_rows, <- list_fmap_compose.
  assert (Hgroups :
    snd ∘ (λ k, (k, group_sum item quantity rows k)) <$> group_keys (item <$> rows) =
    wrap64 <$> ((λ k, exact_sum (quantity <$> group_rows item rows k)) <$>
                group_keys (item <$> rows))).
  { rewrite <- list_fmap_compose. apply list_fmap_ext. intros _ k _.
    exact (agg_sum_int64 (quantity <$> group_rows item rows k)). }
  rewrite Hgroups, !sum_int64, wrap64_exact_sum_fmap. f_equal. symmetry.
  apply exact_sum_groups; [apply group_keys_NoDup|].
  intros r Hr. apply elem_of_group_keys, list_elem_of_fmap. eauto.
Qed.

(** ** Stock levels *)

Section Stock.
Context {F : Type} {R : Real F}.

Lemma zip_fmap_rows {A B C} (f : A → B) (g : A → C) (l : list A) :
  zip (f <$> l) (g <$> l) = (λ x, (f x, g x)) <$> l.
Proof. induction l as [|x l IH]; [done|]. simpl. by f_equal. Qed.

(** X11.  [low_stock_items] returns, in row order and with their repetitions,
    the items of exactly the inventory rows whose stock is below the
    threshold. *)
Theorem low_stock_items_rows (rows : list InventoryRecord) (threshold : Z) :
  low_stock_items (F := F) (inventory_table rows) threshold =
  Ok (inv_item <$> filter (λ r, stock r < threshold) rows).
Proof.
  unfold low_stock_items.
  cbn [inventory_table getitem Stock Item mbind result_bind mret result_ret].
  f_equal. rewrite zip_fmap_rows.
  induction rows as [|r rows IH]; [done|]. rewrite fmap_cons.
  destruct (decide (stock r < threshold)) as [Hr|Hr].
  - rewrite !filter_cons_True by done. rewrite !fmap_cons. simpl. by f_equal.
  - rewrite !filter_cons_False by done. done.
Qed.

(** X12.  On every frame, [fast_movers] is [low_stock_items] with the
    threshold 2, errors included: a stock of at most 1 is a stock below 2. *)
Theorem fast_movers_is_low_stock_below_two (inventory_df : DataFrame F) :
  fast_movers inventory_df = low_stock_items inventory_df 2.
Proof.
  unfold fast_movers, low_stock_items.
  destruct (Stock inventory_df) as [s|]; [|done].
  destruct (Item inventory_df) as [i|]; [|done].
  cbn [getitem mbind result_bind mret result_ret]. do 2 f_equal.
  apply list_filter_iff. intros [x z]. simpl. lia.
Qed.

(** X13.  Raising the threshold of [low_stock_items] only adds items: the
    list for a lower threshold is a sublist of the list for a higher one. *)
Theorem low_stock_items_monotone (inventory_df : DataFrame F) (t1 t2 : Z)
    (l1 l2 : list string) :
  (t1 ≤ t2)%Z →
  low_stock_items inventory_df t1 = Ok l1 →
  low_stock_items inventory_df t2 = Ok l2 →
  sublist l1 l2.
Proof.
  intros Ht. unfold low_stock_items.
  destruct (Stock inventory_df) as [s|]; [|done].
  destruct (Item inventory_df) as [i|]; [|done].
  cbn [getitem mbind result_bind mret result_ret]. intros [= <-] [= <-].
  apply fmap_sublist. generalize (zip i s) as rows.
  induction rows as [|[x z] rows IH]; [done|].
  destruct (decide (z < t1)) as [Hz|Hz].
  - rewrite !filter_cons_True by (simpl; lia). by constructor.
  - rewrite (filter_cons_False (λ row : string * Z, row.2 < t1)) by (simpl; lia).
    destruct (decide (z < t2)) as [Hz2|Hz2].
    + rewrite (filter_cons_True (λ row : string * Z, row.2 < t2)) by (simpl; lia).
      by constructor.
    + by rewrite (filter_cons_False (λ row : string * Z, row.2 < t2)) by (simpl; lia).
Qed.
End Stock.

(** ** The properties above on the fixtures *)

Section Fixtures.
#[local] Existing Instance left_to_right.
#[local] Existing Instance insertion_order.

Lemma low_stock_items_monotone_witness : sublist ["Milk"] ["Coffee"; "Milk"].
Proof.
  apply (low_stock_items_monotone (F := Float64.t)
           (inventory_table scenario_inventory) 1 10); [lia|reflexivity..].
Defined.

Lemma integer_metrics_ignore_row_order_witness :
  total_units_sold (sales_table (reverse tied_day)) = total_units_sold (sales_table tied_day) ∧
  number_of_transactions (sales_table (reverse tied_day)) =
    number_of_transactions (sales_table tied_day) ∧
  average_basket_size (sales_table (reverse tied_day)) =
    average_basket_size (sales_table tied_day) ∧
  top_selling_item (sales_table (reverse tied_day)) = top_selling_item (sales_table tied_day).
Proof.
  apply integer_metrics_ignore_row_order. symmetry. apply reverse_Permutation.
Defined.

Lemma average_basket_size_is_units_per_transaction_witness :
  average_basket_size (sales_table scenario_sales) =
  Ok (SFdiv Float64.prec Float64.emax (Float64.of_Z 4) (Float64.of_Z 2)).
Proof.
  apply average_basket_size_is_units_per_transaction; [reflexivity..|lia].
Defined.

Lemma top_selling_item_returns_least_maximum_witness :
  ∃ i, least_max_key item quantity tied_day i ∧
       top_selling_item (sales_table tied_day) = Ok i.
Proof. by apply top_selling_item_returns_least_maximum. Defined.

Lemma peak_sales_hour_returns_least_maximum_witness :
  ∃ t, least_max_key time total_price tied_day t ∧
       peak_sales_hour (sales_table tied_day) = Ok t.
Proof.
  apply peak_sales_hour_returns_least_maximum; [done|].
  intros t Ht. key_cases Ht; reflexivity.
Defined.

Lemma most_profitable_item_returns_least_maximum_witness :
  ∃ i, least_max_key item profit loss_day i ∧
       most_profitable_item (sales_table loss_day) = Ok i.
Proof.
  apply most_profitable_item_returns_least_maximum; [done|].
  intros i Hi. key_cases Hi; reflexivity.
Defined.

Lemma low_margin_high_sellers_monotone_witness : sublist ["Bread"] ["Bread"; "Tea"].
Proof.
  apply (low_margin_high_sellers_monotone bakery_day
           (Float64.of_Z 10) (Float64.of_Z 60) 2 6);
    [reflexivity|lia|vm_compute; reflexivity..].
Defined.

Lemma giveaway_groups_witness :
  ∃ flagged,
    low_margin_high_sellers (sales_table promo_day)
      default_margin_threshold default_qty_threshold = Ok flagged ∧
    (SFltb Float64.pos_zero (group_sum item profit promo_day "Pin") = true →
     group_margin promo_day "Pin" = S754_infinity false ∧ "Pin" ∉ flagged) ∧
    (SFltb (group_sum item profit promo_day "Pin") Float64.pos_zero = true →
     group_margin promo_day "Pin" = S754_infinity true ∧
     ("Pin" ∈ flagged ↔
      "Pin" ∈ item <$> promo_day ∧
      (default_qty_threshold ≤ group_sum item quantity promo_day "Pin")%Z ∧
      SFltb (S754_infinity true) default_margin_threshold = true)).
Proof. apply giveaway_groups. vm_compute. reflexivity. Defined.

Example promo_day_flagged :
  low_margin_high_sellers (sales_table promo_day)
    default_margin_threshold default_qty_threshold = Ok ["Bread"; "Pin"].
Proof. vm_compute. reflexivity. Qed.

Lemma unsold_items_depends_on_item_sets_witness :
  ∃ unsold unsold',
    unsold_items (inventory_table scenario_inventory) (sales_table scenario_sales) =
      Ok unsold ∧
    unsold_items (inventory_table (reverse scenario_inventory))
      (sales_table (scenario_sales ++ scenario_sales)) = Ok unsold' ∧
    unsold ≡ₚ unsold'.
Proof.
  apply unsold_items_depends_on_item_sets.
  - intros x. by rewrite fmap_reverse, elem_of_reverse.
  - intros x. rewrite fmap_app, elem_of_app. tauto.
Defined.

Lemma leaders_are_not_unsold_witness :
  (∀ i, top_selling_item (sales_table scenario_sales) = Ok i → i ∉ ["Milk"]) ∧
  (∀ i, most_profitable_item (sales_table scenario_sales) = Ok i → i ∉ ["Milk"]) ∧
  (∀ flagged,
     low_margin_high_sellers (sales_table scenario_sales)
       default_margin_threshold default_qty_threshold = Ok flagged →
     ∀ i, i ∈ flagged → i ∉ ["Milk"]).
Proof.
  apply (leaders_are_not_unsold (inventory_table scenario_inventory)).
  vm_compute. reflexivity.
Defined.

Lemma report_ignores_cost_and_absence_witness :
  natural_language_summary spec_format (Float64.of_Z 11) (decimal 7 2) (decimal 15 2)
    (Float64.of_Z 68) 4 2 (Float64.of_Z 2) "09:00" "Coffee" "Coffee"
    (Some ["Coffee"; "Milk"]) None (Some []) None =
  natural_language_summary spec_format (Float64.of_Z 11) Float64.pos_zero (decimal 15 2)
    (Float64.of_Z 68) 4 2 (Float64.of_Z 2) "09:00" "Coffee" "Coffee"
    (Some ["Coffee"; "Milk"]) (Some []) None (Some []).
Proof. by apply report_ignores_cost_and_absence. Defined.

End Fixtures.
